(** * outcomes-import: a shallow embedding of [outcomes-import.go]

    The program is a one-shot command-line client: it merges its flags with
    a stored configuration, normalises the domain, runs one of three API
    operations over HTTP, prints the decoded answer and writes the
    configuration back.

    Go strings are byte sequences and are modelled by [string]; Go [int]
    values are modelled by [Z] (the program does no arithmetic on them).
    Everything the program does to the outside (standard output, the log,
    the usage text, HTTP requests, the configuration file) is threaded
    through an explicit [world]; [log.Fatalln] and a run-time panic end the
    run and are results of their own. *)

From Stdlib Require Import String Ascii ZArith List Lia Bool DecimalString.
Import ListNotations.

Open Scope string_scope.
Open Scope list_scope.

(** ** The Go library functions on strings used by the program *)

(** [strings.HasPrefix]: [len(s) >= len(prefix) && s[:len(prefix)] == prefix]. *)
Definition HasPrefix (s prefix : string) : bool :=
  (String.length prefix <=? String.length s)%nat
  && (substring 0 (String.length prefix) s =? prefix)%string.

(** [strings.HasSuffix]:
    [len(s) >= len(suffix) && s[len(s)-len(suffix):] == suffix]. *)
Definition HasSuffix (s suffix : string) : bool :=
  (String.length suffix <=? String.length s)%nat
  && (substring (String.length s - String.length suffix)
                (String.length suffix) s =? suffix)%string.

(** [strings.TrimSuffix]: [s[:len(s)-len(suffix)]] when [s] ends in
    [suffix], [s] otherwise. *)
Definition TrimSuffix (s suffix : string) : string :=
  if HasSuffix s suffix
  then substring 0 (String.length s - String.length suffix) s
  else s.

(** The verb [%d] of [fmt] on an [int]: decimal digits, a leading [-] for
    a negative number. *)
Definition itoa (x : Z) : string := NilEmpty.string_of_int (Z.to_int x).

(** The newline byte, written [\n] in the Go source. *)
Definition nl : string := String "010"%char EmptyString.

(** ** Domain normalisation (lines 126-138) *)

Definition normalizeDomain (domain : string) : string :=
  let retval := domain in
  if (domain =? "localhost")%string then "http://localhost:3000"
  else
    let retval :=
      if negb (HasPrefix retval "http") then
        let retval := ("https://" ++ retval)%string in
        if negb (HasSuffix retval "com") && negb (HasSuffix retval "/")
        then (retval ++ ".instructure.com")%string
        else retval
      else retval in
    TrimSuffix retval "/".

(** The rule of the specification, in its words: what is prepended and
    appended to an input other than [localhost] before the trailing slash
    is stripped.  [starts_with] and [ends_in] are the mathematical notions,
    not the library calls. *)
Definition starts_with (s p : string) : Prop := exists r, s = (p ++ r)%string.
Definition ends_in (s p : string) : Prop := exists r, s = (r ++ p)%string.

Definition qualified (domain r : string) : Prop :=
  (starts_with domain "http" -> r = domain) /\
  (~ starts_with domain "http" ->
     let r1 := ("https://" ++ domain)%string in
     (ends_in r1 "com" \/ ends_in r1 "/" -> r = r1) /\
     (~ (ends_in r1 "com" \/ ends_in r1 "/") ->
        r = (r1 ++ ".instructure.com")%string)).

Definition strip_slash (r out : string) : Prop :=
  (ends_in r "/" -> r = (out ++ "/")%string) /\
  (~ ends_in r "/" -> out = r).

(** ** Data model (lines 16-53)

    Each Go struct is a record in a module of its name, so that the fields
    keep the names of the source. *)

Module config.
Record t := mk { Apikey : string; MigrationId : Z; Domain : string }.
End config.

Module request.
Record t := mk {
  Body : string; Apikey : string; Domain : string;
  Method : string; Endpoint : string }.
End request.

Module importableGuid.
Record t := mk { Title : string; Guid : string }.
End importableGuid.

Module migrationIssue.
Record t := mk {
  Id : Z; IssueType : string; Description : string;
  ErrorReportUrl : string; ErrorMessage : string }.
End migrationIssue.

Module migrationStatus.
Record t := mk {
  Id : Z; WorkflowState : string; MigrationIssuesCount : Z;
  MigrationIssues : list migrationIssue.t }.
End migrationStatus.

Module newImport.
Record t := mk { MigrationId : Z; Guid : string }.
End newImport.

(** The five flags as [flag.Parse] leaves them (lines 85-94); a flag that
    was not given holds its default, the zero value of its type. *)
Module flag.
Record t := mk {
  apikey : string; domain : string; status : Z;
  available : bool; guid : string }.
End flag.

(** What [httpRequest] hands to [client.Do]: method, URL, body and the one
    header the program adds. *)
Module http.
Record Request := mk {
  Method : string; URL : string; Body : string; Authorization : string }.
End http.

(** ** The world of one run *)

Inductive event : Type :=
| Stdout (text : string)      (* fmt.Printf, fmt.Println *)
| Log (text : string)         (* log.Println, log.Printf, log.Fatalln *)
| Usage                       (* flag.Usage *)
| Do (r : http.Request).      (* client.Do *)

(** [conf] is the content of [$HOME/.outcomes-import.conf], [None] when
    [os.Open] fails on it (no such file); [writable] tells whether
    [ioutil.WriteFile] on that path succeeds (what a failed write leaves is
    [WriteFile_leaves] below); [server] is what [client.Do]
    answers: the body of the response, [None] for a transport error. *)
Record world := mkWorld {
  HOME : string;
  conf : option string;
  writable : bool;
  server : http.Request -> option string;
  trace : list event }.

(** The functions of [net/url], [encoding/json] and [io/ioutil] the program
    calls are not part of the repository: they are an interface the
    development is parametric in.  [url_Parse] is [url.Parse] followed by
    the printing of the parsed URL ([None]: [http.NewRequest] fails); a
    decoder answers [None] when [Decode] returns an error.
    [WriteFile_leaves old data] is the content of the file after an
    [ioutil.WriteFile] of [data] that returns an error, [old] being the
    content before: [old] itself when the open fails (the file is not
    touched), an empty or partial file when the write fails after the
    truncating open. *)
Class GoLib := {
  WriteFile_leaves : option string -> string -> option string;
  url_Parse : string -> option string;
  json_Decode_config : string -> option config.t;
  json_MarshalIndent : config.t -> option string;
  json_Decode_guids : string -> option (list importableGuid.t);
  json_Decode_status : string -> option migrationStatus.t;
  json_Decode_import : string -> option newImport.t }.

(** A run either goes on with a value, or ends in [log.Fatalln]
    ([os.Exit(1)]), or ends in a run-time panic (exit status 2). *)
Inductive result (A : Type) : Type :=
| Ok (a : A) (w : world)
| Fatal (w : world)
| Panic (w : world).
Arguments Ok {A} a w.
Arguments Fatal {A} w.
Arguments Panic {A} w.

Definition M (A : Type) : Type := world -> result A.

Definition ret {A : Type} (a : A) : M A := fun w => Ok a w.

Definition bind {A B : Type} (m : M A) (k : A -> M B) : M B :=
  fun w =>
    match m w with
    | Ok a w' => k a w'
    | Fatal w' => Fatal w'
    | Panic w' => Panic w'
    end.

Notation "x <- m ;; k" := (bind m (fun x => k))
  (at level 61, m at next level, right associativity).
Notation "m ;; k" := (bind m (fun _ => k))
  (at level 61, right associativity).

Definition final {A : Type} (r : result A) : world :=
  match r with Ok _ w => w | Fatal w => w | Panic w => w end.

(** The exit status of the process when [main] ends with [r]. *)
Definition exit_status {A : Type} (r : result A) : Z :=
  match r with Ok _ _ => 0 | Fatal _ => 1 | Panic _ => 2 end.

Definition record (e : event) (w : world) : world :=
  mkWorld (HOME w) (conf w) (writable w) (server w) (trace w ++ [e]).

(** [w] after the events [evs], everything else as it was. *)
Definition extend (evs : list event) (w : world) : world :=
  mkWorld (HOME w) (conf w) (writable w) (server w) (trace w ++ evs).

(** [w] with the configuration file holding [b]. *)
Definition written (b : string) (w : world) : world :=
  mkWorld (HOME w) (Some b) (writable w) (server w) (trace w).

Definition emit (e : event) : M unit := fun w => Ok tt (record e w).

Definition fmt_Printf (text : string) : M unit := emit (Stdout text).
Definition log_Println (text : string) : M unit := emit (Log text).
Definition log_Fatalln {A : Type} (text : string) : M A :=
  fun w => Fatal (record (Log text) w).
Definition flag_Usage : M unit := emit Usage.

(** [os.Open] on the configuration file: its content, or [None]. *)
Definition os_Open : M (option string) := fun w => Ok (conf w) w.

(** [w] after a write of [b] that failed. *)
Definition unwritten {lib : GoLib} (b : string) (w : world) : world :=
  mkWorld (HOME w) (WriteFile_leaves (conf w) b) (writable w) (server w) (trace w).

(** [ioutil.WriteFile] on the configuration file: [true] when it returns
    an error, in which case the file holds what the failed call left. *)
Definition ioutil_WriteFile {lib : GoLib} (b : string) : M bool :=
  fun w =>
    if writable w
    then Ok false (written b w)
    else Ok true (unwritten b w).

(** [client.Do]: the request goes out and the server answers. *)
Definition client_Do (hreq : http.Request) : M (option string) :=
  fun w => Ok (server w hreq) (record (Do hreq) w).

(** Reading a field through a pointer: a nil pointer panics. *)
Definition deref {A : Type} (p : option A) : M A :=
  match p with
  | Some a => ret a
  | None => fun w => Panic w
  end.

(** A [for _, x := range l] loop with no [break]. *)
Fixpoint range {A : Type} (l : list A) (body : A -> M unit) : M unit :=
  match l with
  | [] => ret tt
  | x :: l' => body x ;; range l' body
  end.

(** The text of a Go [error] is not modelled: a log line that prints one
    shows this word in its place. *)
Definition err : string := "error".

(** The events of a trace that are lines on standard output, and the
    requests that went out. *)
Fixpoint stdout (t : list event) : list string :=
  match t with
  | [] => []
  | Stdout s :: t' => s :: stdout t'
  | _ :: t' => stdout t'
  end.

Fixpoint requests (t : list event) : list http.Request :=
  match t with
  | [] => []
  | Do r :: t' => r :: requests t'
  | _ :: t' => requests t'
  end.

(** ** The program *)

Section Program.
Context {lib : GoLib}.

Definition ConfigFile : string := ".outcomes-import.conf".

(** lines 80-82 *)
Definition configFile : M string :=
  fun w => Ok (HOME w ++ "/" ++ ConfigFile)%string w.

(** lines 55-65; the result is a pointer, [None] is [nil]. *)
Definition configFromFile : M (option config.t) :=
  f <- os_Open ;;
  match f with
  | Some content =>
      match json_Decode_config content with
      | None => log_Fatalln ("Config file json error: " ++ err)
      | Some cf => ret (Some cf)
      end
  | None => ret None
  end.

(** lines 67-78; the error [ioutil.WriteFile] returns is dropped. *)
Definition writeToFile (c : config.t) : M unit :=
  current <- configFromFile ;;
  cur <- deref current ;;
  let c :=
    if (config.Apikey cur =? "")%string
    then config.mk "" (config.MigrationId c) (config.Domain c)
    else c in
  match json_MarshalIndent c with
  | None =>
      path <- configFile ;;
      log_Fatalln ("Error writing to " ++ path)
  | Some b =>
      _ <- ioutil_WriteFile b ;;
      ret tt
  end.

(** lines 140-144; [log.Fatalln] does not return, so [os.Exit(1)] is
    never reached. *)
Definition errAndExit {A : Type} (message : string) : M A :=
  flag_Usage ;;
  log_Fatalln message.

(** lines 146-153 *)
Definition verifyRequest (req : request.t) : M unit :=
  (if (request.Apikey req =? "")%string
   then errAndExit "You need a valid canvas API key"
   else ret tt) ;;
  (if (request.Domain req =? "")%string
   then errAndExit "You must supply a canvas domain"
   else ret tt).

(** lines 155-167; the methods the program uses are valid, so
    [http.NewRequest] fails only on the URL. *)
Definition httpRequest (req : request.t) : M http.Request :=
  match url_Parse (request.Domain req ++ request.Endpoint req) with
  | None => log_Fatalln err
  | Some u =>
      ret (http.mk (request.Method req) u (request.Body req)
                   ("Bearer " ++ request.Apikey req))
  end.

(** lines 179-196 *)
Definition getAvailable (req : request.t) : M (list importableGuid.t) :=
  let req :=
    request.mk "" (request.Apikey req) (request.Domain req)
               "GET" "/api/v1/global/outcomes_import/available" in
  hreq <- httpRequest req ;;
  log_Println ("Requesting available guids from " ++ http.URL hreq) ;;
  resp <- client_Do hreq ;;
  match resp with
  | None => log_Fatalln err
  | Some body =>
      match json_Decode_guids body with
      | None => log_Fatalln err
      | Some guids => ret guids
      end
  end.

(** lines 262-267 *)
Definition printImportableGuids (guids : list importableGuid.t) : M unit :=
  fmt_Printf ("GUIDs available to import:" ++ nl ++ nl) ;;
  range guids (fun guid =>
    fmt_Printf (importableGuid.Guid guid ++ " - "
                ++ importableGuid.Title guid ++ nl)).

(** lines 169-177; the fields of the literal are evaluated before
    [writeToFile] is called. *)
Definition printAvailable (req : request.t) : M unit :=
  guids <- getAvailable req ;;
  printImportableGuids guids ;;
  current <- configFromFile ;;
  cur <- deref current ;;
  writeToFile (config.mk (request.Apikey req) (config.MigrationId cur)
                         (request.Domain req)).

(** lines 269-285 *)
Definition printMigrationStatus (mstatus : migrationStatus.t) : M unit :=
  if (migrationStatus.Id mstatus =? 0)%Z then
    fmt_Printf (nl ++ "The server returned an error.  Are you sure that migration ID exists?" ++ nl)
  else
    fmt_Printf (nl ++ "Migration status for migration '"
                ++ itoa (migrationStatus.Id mstatus) ++ "':" ++ nl) ;;
    fmt_Printf (" - Workflow state: "
                ++ migrationStatus.WorkflowState mstatus ++ nl) ;;
    fmt_Printf (" - Migration issues count: "
                ++ itoa (migrationStatus.MigrationIssuesCount mstatus) ++ nl) ;;
    fmt_Printf (" - Migration issues:" ++ nl) ;;
    range (migrationStatus.MigrationIssues mstatus) (fun val =>
      fmt_Printf ("   - ID: " ++ itoa (migrationIssue.Id val) ++ nl) ;;
      fmt_Printf ("   - Link: " ++ migrationIssue.ErrorReportUrl val ++ nl) ;;
      fmt_Printf ("   - Issue type: " ++ migrationIssue.IssueType val ++ nl) ;;
      fmt_Printf ("   - Error message: "
                  ++ migrationIssue.ErrorMessage val ++ nl) ;;
      fmt_Printf ("   - Description: "
                  ++ migrationIssue.Description val ++ nl)).

(** lines 198-225 *)
Definition getStatus (req : request.t) (migrationId : Z) : M unit :=
  let req :=
    request.mk "" (request.Apikey req) (request.Domain req) "GET"
      ("/api/v1/global/outcomes_import/migration_status/" ++ itoa migrationId) in
  hreq <- httpRequest req ;;
  log_Println ("Retrieving status for migration " ++ itoa migrationId) ;;
  resp <- client_Do hreq ;;
  match resp with
  | None => log_Fatalln err
  | Some body =>
      match json_Decode_status body with
      | None => log_Fatalln err
      | Some mstatus =>
          printMigrationStatus mstatus ;;
          writeToFile (config.mk (request.Apikey req) migrationId
                                 (request.Domain req))
      end
  end.

(** lines 287-292 *)
Definition printImportResults (nimport : newImport.t) : M unit :=
  fmt_Printf (nl ++ "Migration ID is "
              ++ itoa (newImport.MigrationId nimport) ++ nl).

(** lines 230-235: the loop that replaces [guid] by the guid of the first
    entry whose title it is, and leaves the loop there. *)
Fixpoint titleToGuid (guids : list importableGuid.t) (guid : string) : string :=
  match guids with
  | [] => guid
  | val :: rest =>
      if (importableGuid.Title val =? guid)%string
      then importableGuid.Guid val
      else titleToGuid rest guid
  end.

(** lines 227-260 *)
Definition importGuid (req : request.t) (guid : string) : M unit :=
  guids <- getAvailable req ;;
  let guid := titleToGuid guids guid in
  let req :=
    request.mk ("guid=" ++ guid) (request.Apikey req) (request.Domain req)
               "POST" "/api/v1/global/outcomes_import/" in
  hreq <- httpRequest req ;;
  log_Println ("Requesting import of GUID " ++ guid) ;;
  resp <- client_Do hreq ;;
  match resp with
  | None => log_Fatalln err
  | Some body =>
      match json_Decode_import body with
      | None => log_Fatalln err
      | Some nimport =>
          printImportResults nimport ;;
          writeToFile (config.mk (request.Apikey req)
                                 (newImport.MigrationId nimport)
                                 (request.Domain req))
      end
  end.

(** lines 96-109 of [main]: the flags merged with the stored
    configuration; the result is [( *apikey, *status, *domain)]. *)
Definition mergeConfig (fl : flag.t) : M (string * Z * string) :=
  cf <- configFromFile ;;
  match cf with
  | Some cf =>
      apikey <-
        (if (flag.apikey fl =? "")%string
         then log_Println "Using API key from config file" ;;
              ret (config.Apikey cf)
         else ret (flag.apikey fl)) ;;
      status <-
        (if (flag.status fl =? 0)%Z
         then log_Println "Using migration ID from config file" ;;
              ret (config.MigrationId cf)
         else ret (flag.status fl)) ;;
      domain <-
        (if (flag.domain fl =? "")%string
         then log_Println "Using domain from config file" ;;
              ret (config.Domain cf)
         else ret (flag.domain fl)) ;;
      ret (apikey, status, domain)
  | None => ret (flag.apikey fl, flag.status fl, flag.domain fl)
  end.

(** lines 111-124 of [main]: the request is checked, the domain
    normalised, and one branch of the chain is taken. *)
Definition dispatch (fl : flag.t) (merged : string * Z * string) : M unit :=
  let '(apikey, status, domain) := merged in
  let req := request.mk "" apikey domain "" "" in
  verifyRequest req ;;
  let req :=
    request.mk (request.Body req) (request.Apikey req)
               (normalizeDomain (request.Domain req))
               (request.Method req) (request.Endpoint req) in
  if flag.available fl then printAvailable req
  else if negb (flag.guid fl =? "")%string then importGuid req (flag.guid fl)
  else if negb (status =? 0)%Z then getStatus req status
  else log_Fatalln "No recent migration ID, and none specified to query status on".

(** lines 84-124 *)
Definition main (fl : flag.t) : M unit :=
  merged <- mergeConfig fl ;;
  dispatch fl merged.

(** The three API operations, to state which of them a run performs. *)
Inductive operation : Type :=
| ListAvailable
| Import (guid : string)
| Status (migrationId : Z).

Definition run (req : request.t) (op : operation) : M unit :=
  match op with
  | ListAvailable => printAvailable req
  | Import guid => importGuid req guid
  | Status migrationId => getStatus req migrationId
  end.

(** How an operation ends, seen from the world [w] it starts in: it stops
    in a fatal error before the save, or panics on the missing file
    before the save, or ends as the save of the request's key and domain
    with some migration id does. *)
Definition stops_or_saves (req : request.t) (r : result unit) (w : world) : Prop :=
  (exists evs, r = Fatal (extend evs w)) \/
  (exists evs, conf w = None /\ r = Panic (extend evs w)) \/
  (exists evs mid,
     r = writeToFile (config.mk (request.Apikey req) mid (request.Domain req))
                     (extend evs w)).

End Program.

(** ** The words of the specification *)

(** The request [main] hands to the operation it runs. *)
Definition request_of (apikey domain : string) : request.t :=
  request.mk "" apikey (normalizeDomain domain) "" "".

(** Merge precedence, field by field: a flag that is not the zero value
    wins; a zero flag takes the stored value when there is a stored
    configuration, and stays zero when there is none. *)
Definition precedence (fl : flag.t) (cf : option config.t)
    (merged : string * Z * string) : Prop :=
  let '(apikey, status, domain) := merged in
  (flag.apikey fl <> "" -> apikey = flag.apikey fl) /\
  (flag.status fl <> 0%Z -> status = flag.status fl) /\
  (flag.domain fl <> "" -> domain = flag.domain fl) /\
  (forall c, cf = Some c ->
     (flag.apikey fl = "" -> apikey = config.Apikey c) /\
     (flag.status fl = 0%Z -> status = config.MigrationId c) /\
     (flag.domain fl = "" -> domain = config.Domain c)) /\
  (cf = None ->
     (flag.apikey fl = "" -> apikey = "") /\
     (flag.status fl = 0%Z -> status = 0%Z) /\
     (flag.domain fl = "" -> domain = "")).

(** The log lines of the merge over a stored configuration. *)
Definition merge_logs (fl : flag.t) : list string :=
  (if (flag.apikey fl =? "")%string then ["Using API key from config file"] else [])
  ++ (if (flag.status fl =? 0)%Z then ["Using migration ID from config file"] else [])
  ++ (if (flag.domain fl =? "")%string then ["Using domain from config file"] else []).

(** The value a save writes: the API key is kept only when the
    configuration read back before the write already holds one. *)
Definition persisted (prior c : config.t) : config.t :=
  config.mk (if (config.Apikey prior =? "")%string then "" else config.Apikey c)
            (config.MigrationId c) (config.Domain c).

(** The title resolution of an import: [guid'] is the guid of an entry
    whose title is the supplied value, or the supplied value itself when
    no entry has that title. *)
Definition resolved (guids : list importableGuid.t) (guid guid' : string) : Prop :=
  (exists e, In e guids /\ importableGuid.Title e = guid
             /\ guid' = importableGuid.Guid e) \/
  ((forall e, In e guids -> importableGuid.Title e <> guid) /\ guid' = guid).

(** The two requests of an import, as they go out: [u] is the parsed URL. *)
Definition available_url (req : request.t) : string :=
  (request.Domain req ++ "/api/v1/global/outcomes_import/available")%string.

Definition import_url (req : request.t) : string :=
  (request.Domain req ++ "/api/v1/global/outcomes_import/")%string.

Definition status_url (req : request.t) (migrationId : Z) : string :=
  (request.Domain req ++ "/api/v1/global/outcomes_import/migration_status/"
   ++ itoa migrationId)%string.

Definition available_request (req : request.t) (u : string) : http.Request :=
  http.mk "GET" u "" ("Bearer " ++ request.Apikey req).

Definition import_request (req : request.t) (u guid : string) : http.Request :=
  http.mk "POST" u ("guid=" ++ guid) ("Bearer " ++ request.Apikey req).

Definition status_request (req : request.t) (u : string) : http.Request :=
  http.mk "GET" u "" ("Bearer " ++ request.Apikey req).

(** The lines [printImportableGuids] and [printMigrationStatus] print. *)
Definition guid_line (g : importableGuid.t) : string :=
  (importableGuid.Guid g ++ " - " ++ importableGuid.Title g ++ nl)%string.

Definition issue_lines (val : migrationIssue.t) : list string :=
  [ ("   - ID: " ++ itoa (migrationIssue.Id val) ++ nl)%string;
    ("   - Link: " ++ migrationIssue.ErrorReportUrl val ++ nl)%string;
    ("   - Issue type: " ++ migrationIssue.IssueType val ++ nl)%string;
    ("   - Error message: " ++ migrationIssue.ErrorMessage val ++ nl)%string;
    ("   - Description: " ++ migrationIssue.Description val ++ nl)%string ].

Definition status_lines (mstatus : migrationStatus.t) : list string :=
  [ (nl ++ "Migration status for migration '"
     ++ itoa (migrationStatus.Id mstatus) ++ "':" ++ nl)%string;
    (" - Workflow state: " ++ migrationStatus.WorkflowState mstatus ++ nl)%string;
    (" - Migration issues count: "
     ++ itoa (migrationStatus.MigrationIssuesCount mstatus) ++ nl)%string;
    (" - Migration issues:" ++ nl)%string ]
  ++ concat (map issue_lines (migrationStatus.MigrationIssues mstatus)).

Definition import_line (nimport : newImport.t) : string :=
  (nl ++ "Migration ID is " ++ itoa (newImport.MigrationId nimport) ++ nl)%string.

Definition available_header : string :=
  ("GUIDs available to import:" ++ nl ++ nl)%string.

Definition not_found_message : string :=
  (nl ++ "The server returned an error.  Are you sure that migration ID exists?" ++ nl)%string.

(** ** A concrete library and concrete runs

    The documents below are the JSON texts of the scenarios: the library
    instance decodes exactly these, accepts every URL as it is, and
    serialises a configuration the way [json.MarshalIndent] does for
    strings that need no escaping.  A write that fails does so at the
    open (a file the process may not write) and leaves the file as it
    was. *)

Definition dq : string := String "034"%char EmptyString.
Definition quote (s : string) : string := (dq ++ s ++ dq)%string.

Definition demo_marshal (c : config.t) : string :=
  ("{" ++ nl
   ++ "  " ++ quote "apikey" ++ ": " ++ quote (config.Apikey c) ++ "," ++ nl
   ++ "  " ++ quote "migration_id" ++ ": " ++ itoa (config.MigrationId c) ++ "," ++ nl
   ++ "  " ++ quote "domain" ++ ": " ++ quote (config.Domain c) ++ nl
   ++ "}")%string.

Fixpoint lookup {A : Type} (table : list (string * A)) (text : string) : option A :=
  match table with
  | [] => None
  | (k, v) :: table' => if (k =? text)%string then Some v else lookup table' text
  end.

Definition utah : string := "https://utah.instructure.com".

Definition stored_no_key : config.t := config.mk "" 5 utah.
Definition stored_with_key : config.t := config.mk "old-key" 5 utah.

(** [[{"guid":"g1","title":"Math"},{"guid":"g2","title":"Science"}]] *)
Definition available_json : string :=
  ("[{" ++ quote "guid" ++ ":" ++ quote "g1" ++ ","
        ++ quote "title" ++ ":" ++ quote "Math" ++ "},{"
        ++ quote "guid" ++ ":" ++ quote "g2" ++ ","
        ++ quote "title" ++ ":" ++ quote "Science" ++ "}]")%string.

Definition available_guids : list importableGuid.t :=
  [importableGuid.mk "Math" "g1"; importableGuid.mk "Science" "g2"].

(** [{"id":0}] *)
Definition status_0_json : string := ("{" ++ quote "id" ++ ":0}")%string.

(** [{"id":7,"workflow_state":"completed","migration_issues_count":0}] *)
Definition status_7_json : string :=
  ("{" ++ quote "id" ++ ":7," ++ quote "workflow_state" ++ ":"
       ++ quote "completed" ++ "," ++ quote "migration_issues_count" ++ ":0}")%string.

(** [{"migration_id":99,"guid":"g1"}] *)
Definition import_json : string :=
  ("{" ++ quote "migration_id" ++ ":99," ++ quote "guid" ++ ":"
       ++ quote "g1" ++ "}")%string.

#[export] Instance demo_lib : GoLib := {|
  WriteFile_leaves := fun old _ => old;
  url_Parse := fun rawurl => Some rawurl;
  json_Decode_config :=
    lookup [ (demo_marshal stored_no_key, stored_no_key);
             (demo_marshal stored_with_key, stored_with_key) ];
  json_MarshalIndent := fun c => Some (demo_marshal c);
  json_Decode_guids := lookup [ (available_json, available_guids) ];
  json_Decode_status :=
    lookup [ (status_0_json, migrationStatus.mk 0 "" 0 []);
             (status_7_json, migrationStatus.mk 7 "completed" 0 []) ];
  json_Decode_import := lookup [ (import_json, newImport.mk 99 "g1") ] |}.

(** The configuration a later run saves, and the library whose decoder
    also reads that serialisation back. *)
Definition saved_7 : config.t := config.mk "secret" 7 utah.

Definition reading_lib : GoLib := {|
  WriteFile_leaves := fun old _ => old;
  url_Parse := fun rawurl => Some rawurl;
  json_Decode_config :=
    lookup [ (demo_marshal stored_no_key, stored_no_key);
             (demo_marshal stored_with_key, stored_with_key);
             (demo_marshal saved_7, saved_7) ];
  json_MarshalIndent := fun c => Some (demo_marshal c);
  json_Decode_guids := lookup [ (available_json, available_guids) ];
  json_Decode_status :=
    lookup [ (status_0_json, migrationStatus.mk 0 "" 0 []);
             (status_7_json, migrationStatus.mk 7 "completed" 0 []) ];
  json_Decode_import := lookup [ (import_json, newImport.mk 99 "g1") ] |}.

(** The server of the scenarios: the available list, an import that
    starts migration 99, migration 7 completed, migration 42 unknown. *)
Definition demo_server (h : http.Request) : option string :=
  let url := http.URL h in
  let api := (utah ++ "/api/v1/global/outcomes_import/")%string in
  if (http.Method h =? "GET")%string && (url =? api ++ "available")%string
  then Some available_json
  else if (http.Method h =? "POST")%string && (url =? api)%string
  then Some import_json
  else if (http.Method h =? "GET")%string
          && (url =? api ++ "migration_status/7")%string
  then Some status_7_json
  else if (http.Method h =? "GET")%string
          && (url =? api ++ "migration_status/42")%string
  then Some status_0_json
  else None.

(** No configuration file yet. *)
Definition first_run : world :=
  mkWorld "/home/op" None true demo_server [].

(** A configuration file that stores no API key. *)
Definition no_key_stored : world :=
  mkWorld "/home/op" (Some (demo_marshal stored_no_key)) true demo_server [].

(** The same file, which the process may read and may not write. *)
Definition read_only : world :=
  mkWorld "/home/op" (Some (demo_marshal stored_no_key)) false demo_server [].

(** A configuration file that stores the key [old-key]. *)
Definition key_stored : world :=
  mkWorld "/home/op" (Some (demo_marshal stored_with_key)) true demo_server [].

(** A configuration file that is no JSON. *)
Definition malformed : world :=
  mkWorld "/home/op" (Some "not json") true demo_server [].

(** [-apikey secret -domain utah -status 42] *)
Definition flags_status_42 : flag.t := flag.mk "secret" "utah" 42 false "".
(** [-apikey secret -status 7] *)
Definition flags_status_7 : flag.t := flag.mk "secret" "" 7 false "".
(** [-apikey secret -domain utah -guid Math] *)
Definition flags_guid_Math : flag.t := flag.mk "secret" "utah" 0 false "Math".
(** [-apikey secret -domain utah -available] *)
Definition flags_available : flag.t := flag.mk "secret" "utah" 0 true "".
(** [-apikey secret -domain utah -available -guid Math -status 7] *)
Definition flags_all : flag.t := flag.mk "secret" "utah" 7 true "Math".
(** [-apikey secret -domain utah] *)
Definition flags_no_action : flag.t := flag.mk "secret" "utah" 0 false "".

(** ** Facts about the string functions *)

Lemma length_app (a b : string) :
  String.length (a ++ b) = String.length a + String.length b.
Proof. induction a as [|c a IH]; simpl; [reflexivity | now rewrite IH]. Qed.

Lemma substring_app_l (a b : string) :
  substring 0 (String.length a) (a ++ b) = a.
Proof.
  induction a as [|c a IH]; simpl.
  - destruct b; reflexivity.
  - now rewrite IH.
Qed.

Lemma substring_all (b : string) : substring 0 (String.length b) b = b.
Proof. induction b as [|c b IH]; simpl; [reflexivity | now rewrite IH]. Qed.

Lemma substring_app_r (a b : string) :
  substring (String.length a) (String.length b) (a ++ b) = b.
Proof.
  induction a as [|c a IH]; simpl.
  - apply substring_all.
  - exact IH.
Qed.

Lemma substring_split (s : string) (n : nat) :
  n <= String.length s ->
  s = (substring 0 n s ++ substring n (String.length s - n) s)%string.
Proof.
  revert n; induction s as [|c s IH]; intros n Hn; simpl in *.
  - destruct n; [reflexivity | lia].
  - destruct n as [|n]; simpl.
    + now rewrite substring_all.
    + f_equal. apply IH. lia.
Qed.

Lemma HasPrefix_iff (s p : string) : HasPrefix s p = true <-> starts_with s p.
Proof.
  unfold HasPrefix, starts_with. rewrite andb_true_iff, Nat.leb_le, String.eqb_eq.
  split.
  - intros [Hlen Hsub].
    exists (substring (String.length p) (String.length s - String.length p) s).
    rewrite <- Hsub at 1. now apply substring_split.
  - intros [r ->]. rewrite length_app, substring_app_l. split; [lia | reflexivity].
Qed.

Lemma HasSuffix_iff (s p : string) : HasSuffix s p = true <-> ends_in s p.
Proof.
  unfold HasSuffix, ends_in. rewrite andb_true_iff, Nat.leb_le, String.eqb_eq.
  split.
  - intros [Hlen Hsub].
    exists (substring 0 (String.length s - String.length p) s).
    pose proof (substring_split s (String.length s - String.length p)) as H.
    replace (String.length s - (String.length s - String.length p))
      with (String.length p) in H by lia.
    rewrite Hsub in H. apply H. lia.
  - intros [r ->]. rewrite length_app.
    replace (String.length r + String.length p - String.length p)
      with (String.length r) by lia.
    rewrite substring_app_r. split; [lia | reflexivity].
Qed.

Lemma HasPrefix_false (s p : string) : HasPrefix s p = false <-> ~ starts_with s p.
Proof.
  rewrite <- HasPrefix_iff. destruct (HasPrefix s p); split; congruence.
Qed.

Lemma HasSuffix_false (s p : string) : HasSuffix s p = false <-> ~ ends_in s p.
Proof.
  rewrite <- HasSuffix_iff. destruct (HasSuffix s p); split; congruence.
Qed.

Lemma app_inj_r (a b p : string) : (a ++ p = b ++ p)%string -> a = b.
Proof.
  revert b; induction a as [|c a IH]; intros [|d b] H; simpl in H.
  - reflexivity.
  - apply (f_equal String.length) in H. simpl in H. rewrite length_app in H. lia.
  - apply (f_equal String.length) in H. simpl in H. rewrite length_app in H. lia.
  - injection H as -> H. f_equal. now apply IH.
Qed.

Lemma TrimSuffix_spec (s p : string) :
  (ends_in s p -> s = (TrimSuffix s p ++ p)%string) /\
  (~ ends_in s p -> TrimSuffix s p = s).
Proof.
  unfold TrimSuffix. split.
  - intros H. pose proof H as [r ->]. apply HasSuffix_iff in H. rewrite H.
    rewrite length_app.
    replace (String.length r + String.length p - String.length p)
      with (String.length r) by lia.
    now rewrite substring_app_l.
  - intros H. apply HasSuffix_false in H. now rewrite H.
Qed.

(** ** Domain normalisation: the examples and the rule *)

Example normalizeDomain_localhost :
  normalizeDomain "localhost" = "http://localhost:3000".
Proof. reflexivity. Qed.

Example normalizeDomain_utah :
  normalizeDomain "utah" = "https://utah.instructure.com".
Proof. reflexivity. Qed.

Example normalizeDomain_foo :
  normalizeDomain "https://foo.com/" = "https://foo.com".
Proof. reflexivity. Qed.

Example normalizeDomain_custom :
  normalizeDomain "custom.edu" = "https://custom.edu.instructure.com".
Proof. reflexivity. Qed.

Lemma normalizeDomain_rule (domain : string) :
  domain <> "localhost" ->
  exists r, qualified domain r /\ strip_slash r (normalizeDomain domain).
Proof.
  intros Hne. unfold normalizeDomain.
  apply String.eqb_neq in Hne. rewrite Hne. cbv zeta.
  match goal with |- context [TrimSuffix ?x _] => exists x end.
  split; [| apply TrimSuffix_spec].
  unfold qualified; cbv zeta.
  destruct (HasPrefix domain "http") eqn:Hp; cbn [negb].
  - apply HasPrefix_iff in Hp. split; [reflexivity | tauto].
  - apply HasPrefix_false in Hp. split; [tauto | intros _].
    destruct (HasSuffix ("https://" ++ domain) "com") eqn:Hc;
      [apply (proj1 (HasSuffix_iff _ _)) in Hc
      |apply (proj1 (HasSuffix_false _ _)) in Hc];
      (destruct (HasSuffix ("https://" ++ domain) "/") eqn:Hs;
       [apply (proj1 (HasSuffix_iff _ _)) in Hs
       |apply (proj1 (HasSuffix_false _ _)) in Hs]);
      cbn [negb andb]; split; intros; tauto.
Qed.

Lemma normalize_rule_unique (domain r out r' out' : string) :
  qualified domain r -> strip_slash r out ->
  qualified domain r' -> strip_slash r' out' -> out = out'.
Proof.
  intros [Q1 Q2] [S1 S2] [Q1' Q2'] [S1' S2'].
  assert (r = r') as <-.
  { destruct (HasPrefix domain "http") eqn:Hp.
    - apply HasPrefix_iff in Hp. rewrite (Q1 Hp), (Q1' Hp). reflexivity.
    - apply HasPrefix_false in Hp.
      destruct (Q2 Hp) as [A B], (Q2' Hp) as [A' B'].
      destruct (HasSuffix ("https://" ++ domain) "com") eqn:Hc;
        [apply (proj1 (HasSuffix_iff _ _)) in Hc
        |apply (proj1 (HasSuffix_false _ _)) in Hc];
        (destruct (HasSuffix ("https://" ++ domain) "/") eqn:Hs;
         [apply (proj1 (HasSuffix_iff _ _)) in Hs
         |apply (proj1 (HasSuffix_false _ _)) in Hs]).
      + rewrite A, A'; tauto.
      + rewrite A, A'; tauto.
      + rewrite A, A'; tauto.
      + rewrite B, B'; tauto. }
  destruct (HasSuffix r "/") eqn:Hs.
  - apply HasSuffix_iff in Hs. apply (app_inj_r out out' "/").
    rewrite <- (S1 Hs). exact (S1' Hs).
  - apply HasSuffix_false in Hs. rewrite (S2 Hs), (S2' Hs). reflexivity.
Qed.

(** C3: domain normalisation maps [localhost], [utah], [https://foo.com/]
    and [custom.edu] to the four stated URLs, and on every input other than
    [localhost] it prepends [https://] unless the input starts with [http],
    then appends [.instructure.com] unless the result ends in [com] or [/],
    and finally strips one trailing [/]; the rule leaves no other result. *)
Theorem normalizeDomain_spec :
  normalizeDomain "localhost" = "http://localhost:3000" /\
  normalizeDomain "utah" = "https://utah.instructure.com" /\
  normalizeDomain "https://foo.com/" = "https://foo.com" /\
  normalizeDomain "custom.edu" = "https://custom.edu.instructure.com" /\
  forall domain, domain <> "localhost" ->
    (exists r, qualified domain r /\ strip_slash r (normalizeDomain domain)) /\
    (forall r out, qualified domain r -> strip_slash r out ->
                   out = normalizeDomain domain).
Proof.
  repeat split; try reflexivity.
  - now apply normalizeDomain_rule.
  - intros r out Q S.
    destruct (normalizeDomain_rule domain H) as (r' & Q' & S').
    exact (normalize_rule_unique domain r out r' _ Q S Q' S').
Qed.


(** ** More on domain normalisation: scheme, trailing slashes, names *)

Lemma append_assoc (a b c : string) : ((a ++ b) ++ c = a ++ (b ++ c))%string.
Proof. induction a as [|x a IH]; simpl; [reflexivity | now rewrite IH]. Qed.

Lemma snoc_inj (a b : string) (x y : ascii) :
  (a ++ String x "" = b ++ String y "")%string -> a = b /\ x = y.
Proof.
  revert b; induction a as [|c a IH]; intros [|d b] H; simpl in H.
  - injection H as ->. now split.
  - injection H as _ H. destruct b; discriminate.
  - injection H as _ H. destruct a; discriminate.
  - injection H as -> H. destruct (IH _ H) as [-> ->]. now split.
Qed.

Lemma string_snoc (s : string) :
  s <> "" -> exists s' c, s = (s' ++ String c "")%string.
Proof.
  induction s as [|c s IH]; intros H; [congruence|].
  destruct s as [|d s].
  - now exists "", c.
  - destruct IH as (s' & c' & E); [discriminate|].
    exists (String c s'), c'. simpl. now rewrite <- E.
Qed.

(** The last byte of [a ++ b] is the last byte of a non-empty [b]. *)
Lemma ends_in_app (a b : string) (x : ascii) :
  b <> "" -> ends_in (a ++ b) (String x "") -> ends_in b (String x "").
Proof.
  intros Hb [r E]. destruct (string_snoc b Hb) as (b' & c & ->).
  rewrite <- append_assoc in E. apply snoc_inj in E as [_ ->]. now exists b'.
Qed.

Lemma ends_in_app_r (a b p : string) : ends_in b p -> ends_in (a ++ b) p.
Proof. intros [r ->]. exists (a ++ r)%string. now rewrite append_assoc. Qed.

Lemma double_slash (t : string) : ((t ++ "/") ++ "/" = t ++ "//")%string.
Proof. now rewrite append_assoc. Qed.

(** Stripping keeps a prefix as long as something follows it, or the
    prefix itself does not end in a slash. *)
Lemma TrimSuffix_keeps_prefix (p r : string) :
  r <> "" \/ ~ ends_in p "/" ->
  starts_with (TrimSuffix (p ++ r) "/") p.
Proof.
  intros H. destruct (TrimSuffix_spec (p ++ r) "/") as [T1 T2].
  destruct (HasSuffix (p ++ r) "/") eqn:Hs.
  - apply HasSuffix_iff in Hs. specialize (T1 Hs).
    remember (TrimSuffix (p ++ r) "/") as T eqn:ET. clear ET.
    destruct r as [|c r].
    + destruct H as [H|H]; [congruence|].
      exfalso. apply H. destruct Hs as [t E]. exists t.
      rewrite <- E. clear. induction p; simpl; congruence.
    + destruct (string_snoc (String c r)) as (r' & c' & E); [discriminate|].
      rewrite E, <- append_assoc in T1. apply snoc_inj in T1 as [T1 _].
      exists r'. now rewrite <- T1.
  - apply HasSuffix_false in Hs. rewrite (T2 Hs). now exists r.
Qed.

(** Stripping one slash leaves none unless there were two. *)
Lemma TrimSuffix_no_slash (s : string) :
  ~ ends_in s "//" -> ~ ends_in (TrimSuffix s "/") "/".
Proof.
  intros H. destruct (TrimSuffix_spec s "/") as [T1 T2].
  destruct (HasSuffix s "/") eqn:Hs.
  - apply HasSuffix_iff in Hs. specialize (T1 Hs). intros [t E].
    apply H. exists t. now rewrite T1, E, double_slash.
  - apply HasSuffix_false in Hs. now rewrite (T2 Hs).
Qed.

(** [a ++ d] ends in two slashes only if [d] does, or [d] is a lone
    slash after a slash, or [d] is empty. *)
Lemma double_slash_app (a d : string) :
  d <> "" -> d <> "/" -> ends_in (a ++ d) "//" -> ends_in d "//".
Proof.
  intros Hd Hs [t E]. rewrite <- double_slash in E.
  destruct (string_snoc d Hd) as (d' & c & ->).
  rewrite <- append_assoc in E. apply snoc_inj in E as [E ->].
  destruct d' as [|x d']; [now elim Hs|].
  destruct (string_snoc (String x d')) as (d'' & c' & E'); [discriminate|].
  rewrite E' in *. rewrite <- append_assoc in E.
  apply snoc_inj in E as [_ ->]. exists d''. now rewrite double_slash.
Qed.

Lemma localhost_not_url (x : string) : starts_with x "http" -> x <> "localhost".
Proof. intros [r ->]. discriminate. Qed.

(** A URL with no trailing slash is left as it is. *)
Lemma normalizeDomain_fixed (x : string) :
  starts_with x "http" -> ~ ends_in x "/" -> normalizeDomain x = x.
Proof.
  intros Hp Hs. unfold normalizeDomain.
  pose proof (localhost_not_url _ Hp) as Hl.
  apply String.eqb_neq in Hl. rewrite Hl.
  apply HasPrefix_iff in Hp. rewrite Hp. cbn [negb].
  now apply TrimSuffix_spec.
Qed.

Lemma normalizeDomain_http (domain : string) :
  starts_with (normalizeDomain domain) "http".
Proof.
  unfold normalizeDomain.
  destruct (domain =? "localhost")%string; [now exists "://localhost:3000"|].
  destruct (HasPrefix domain "http") eqn:Hp; cbn [negb].
  - apply HasPrefix_iff in Hp as [r ->].
    apply TrimSuffix_keeps_prefix. right. apply HasSuffix_false. reflexivity.
  - destruct (negb _ && negb _).
    + apply (TrimSuffix_keeps_prefix "http" ("s://" ++ domain ++ ".instructure.com")).
      right. apply HasSuffix_false. reflexivity.
    + apply (TrimSuffix_keeps_prefix "http" ("s://" ++ domain)).
      right. apply HasSuffix_false. reflexivity.
Qed.

Lemma normalizeDomain_no_slash (domain : string) :
  domain <> "" -> domain <> "/" -> ~ ends_in domain "//" ->
  ~ ends_in (normalizeDomain domain) "/".
Proof.
  intros Hd Hs Hss. unfold normalizeDomain.
  destruct (domain =? "localhost")%string.
  { apply HasSuffix_false. reflexivity. }
  apply TrimSuffix_no_slash.
  destruct (HasPrefix domain "http"); cbn [negb]; [exact Hss|].
  destruct (negb _ && negb _).
  - intros [t E]. rewrite <- double_slash in E.
    change (("https://" ++ domain) ++ ".instructure.com")%string
      with (("https://" ++ domain) ++ ".instructure.co" ++ "m")%string in E.
    rewrite <- append_assoc in E. apply snoc_inj in E as [_ E]. discriminate.
  - intros H. apply Hss. now apply (double_slash_app "https://").
Qed.

(** X1: every normalised domain starts with [http]; a non-empty name that
    is not [localhost] and carries no [http] of its own gets [https://]. *)
Theorem normalizeDomain_scheme (domain : string) :
  starts_with (normalizeDomain domain) "http" /\
  (domain <> "localhost" -> domain <> "" -> ~ starts_with domain "http" ->
   starts_with (normalizeDomain domain) "https://").
Proof.
  split; [apply normalizeDomain_http|].
  intros Hl He Hp. unfold normalizeDomain.
  apply String.eqb_neq in Hl. rewrite Hl.
  apply HasPrefix_false in Hp. rewrite Hp. cbn [negb].
  destruct (negb _ && negb _).
  - rewrite append_assoc. apply TrimSuffix_keeps_prefix. left.
    destruct domain; [congruence|discriminate].
  - apply TrimSuffix_keeps_prefix. now left.
Qed.

(** X2: a domain that is not empty, not a lone slash and does not end in
    two slashes is normalised to a URL with no trailing slash, and
    normalising that URL again changes nothing: the stored domain is
    stable from run to run. *)
Theorem normalizeDomain_stable (domain : string) :
  domain <> "" -> domain <> "/" -> ~ ends_in domain "//" ->
  ~ ends_in (normalizeDomain domain) "/" /\
  normalizeDomain (normalizeDomain domain) = normalizeDomain domain.
Proof.
  intros Hd Hs Hss.
  pose proof (normalizeDomain_no_slash domain Hd Hs Hss) as H.
  split; [exact H|].
  apply normalizeDomain_fixed; [apply normalizeDomain_http|exact H].
Qed.

(** X3: exactly one trailing slash is removed from a URL: [x/] gives [x],
    so a URL ending in two slashes keeps one of them. *)
Theorem normalizeDomain_strips_one_slash (x : string) :
  starts_with x "http" ->
  normalizeDomain (x ++ "/") = x /\
  normalizeDomain (x ++ "//") = (x ++ "/")%string.
Proof.
  intros Hp.
  assert (forall y, starts_with y "http" -> normalizeDomain (y ++ "/") = y) as K.
  { intros y [r ->]. unfold normalizeDomain.
    assert (starts_with (("http" ++ r) ++ "/") "http") as Hy.
    { exists (r ++ "/")%string. now rewrite append_assoc. }
    pose proof (localhost_not_url _ Hy) as Hl.
    apply String.eqb_neq in Hl. rewrite Hl.
    apply HasPrefix_iff in Hy. rewrite Hy. cbn [negb].
    destruct (TrimSuffix_spec (("http" ++ r) ++ "/") "/") as [T1 _].
    symmetry. apply (app_inj_r _ _ "/"). apply T1. now exists ("http" ++ r)%string. }
  split; [now apply K|].
  rewrite <- double_slash. apply K.
  destruct Hp as [r ->]. exists (r ++ "/")%string. now rewrite append_assoc.
Qed.

Lemma com_suffix (t : string) : (((t ++ "c") ++ "o") ++ "m" = t ++ "com")%string.
Proof. now rewrite !append_assoc. Qed.

(** Behind [https://], only the name itself can end in [com]. *)
Lemma ends_in_com (d : string) :
  ends_in ("https://" ++ d) "com" -> ends_in d "com".
Proof.
  intros [t E]. rewrite <- com_suffix in E.
  destruct d as [|x d].
  { change ("https://" ++ "")%string with ("https:/" ++ "/")%string in E.
    apply snoc_inj in E as [_ E]. discriminate. }
  destruct (string_snoc (String x d)) as (d1 & c1 & E1); [discriminate|].
  rewrite E1 in *. clear E1 x d.
  rewrite <- append_assoc in E. apply snoc_inj in E as [E ->].
  destruct d1 as [|x d].
  { change ("https://" ++ "")%string with ("https:/" ++ "/")%string in E.
    apply snoc_inj in E as [_ E]. discriminate. }
  destruct (string_snoc (String x d)) as (d2 & c2 & E2); [discriminate|].
  rewrite E2 in *. clear E2 x d.
  rewrite <- append_assoc in E. apply snoc_inj in E as [E ->].
  destruct d2 as [|x d].
  { change ("https://" ++ "")%string with ("https:/" ++ "/")%string in E.
    apply snoc_inj in E as [_ E]. discriminate. }
  destruct (string_snoc (String x d)) as (d3 & c3 & E3); [discriminate|].
  rewrite E3 in *. clear E3 x d.
  rewrite <- append_assoc in E. apply snoc_inj in E as [_ ->].
  exists d3. apply com_suffix.
Qed.

Lemma com_no_slash (s : string) : ends_in s "com" -> ~ ends_in s "/".
Proof.
  intros [t ->] [u E]. rewrite <- com_suffix in E.
  apply snoc_inj in E as [_ E]. discriminate.
Qed.

(** X4: a name that carries no [http] and is not [localhost] gets the
    scheme alone when it ends in [com], and the scheme and
    [.instructure.com] when it is non-empty and ends neither in [com] nor
    in a slash. *)
Theorem normalizeDomain_names (domain : string) :
  ~ starts_with domain "http" -> domain <> "localhost" ->
  (ends_in domain "com" ->
     normalizeDomain domain = ("https://" ++ domain)%string) /\
  (domain <> "" -> ~ ends_in domain "com" -> ~ ends_in domain "/" ->
     normalizeDomain domain = ("https://" ++ domain ++ ".instructure.com")%string).
Proof.
  intros Hp Hl. unfold normalizeDomain.
  apply String.eqb_neq in Hl. rewrite Hl.
  apply HasPrefix_false in Hp. rewrite Hp. cbn [negb]. split.
  - intros Hc. apply (ends_in_app_r "https://") in Hc.
    pose proof (com_no_slash _ Hc) as Hs.
    apply HasSuffix_iff in Hc. rewrite Hc. cbn [negb andb].
    now apply TrimSuffix_spec.
  - intros He Hc Hs.
    assert (HasSuffix ("https://" ++ domain) "com" = false) as ->.
    { apply HasSuffix_false. intros H. now apply Hc, ends_in_com. }
    assert (HasSuffix ("https://" ++ domain) "/" = false) as ->.
    { apply HasSuffix_false. intros H. now apply Hs, (ends_in_app "https://"). }
    cbn [negb andb]. rewrite append_assoc.
    apply TrimSuffix_spec. apply com_no_slash.
    exists ("https://" ++ domain ++ ".instructure.")%string.
    now rewrite !append_assoc.
Qed.

(** ** Facts about the world and the primitives *)

Lemma record_extend (e : event) (w : world) : record e w = extend [e] w.
Proof. reflexivity. Qed.

Lemma extend_nil (w : world) : extend [] w = w.
Proof. destruct w; unfold extend; simpl. now rewrite app_nil_r. Qed.

Lemma extend_extend (a b : list event) (w : world) :
  extend b (extend a w) = extend (a ++ b) w.
Proof. unfold extend; simpl. now rewrite app_assoc. Qed.

Lemma stdout_app (a b : list event) : stdout (a ++ b) = stdout a ++ stdout b.
Proof.
  induction a as [|e a IH]; simpl; [reflexivity|].
  destruct e; simpl; now rewrite IH.
Qed.

Lemma requests_app (a b : list event) :
  requests (a ++ b) = requests a ++ requests b.
Proof.
  induction a as [|e a IH]; simpl; [reflexivity|].
  destruct e; simpl; now rewrite IH.
Qed.

Lemma stdout_map_Stdout (l : list string) : stdout (map Stdout l) = l.
Proof. induction l as [|x l IH]; simpl; [reflexivity | now rewrite IH]. Qed.

Lemma range_printf {A : Type} (line : A -> string) (l : list A) (w : world) :
  range l (fun x => fmt_Printf (line x)) w
  = Ok tt (extend (map Stdout (map line l)) w).
Proof.
  revert w; induction l as [|x l IH]; intros w; simpl.
  - unfold ret. now rewrite extend_nil.
  - unfold bind, fmt_Printf, emit. rewrite IH, record_extend, extend_extend.
    reflexivity.
Qed.

(** Closes an equation between results whose worlds differ only in the
    way their traces are written. *)
Ltac same_world :=
  rewrite ?record_extend, ?extend_extend; cbn [app]; reflexivity.

Section Facts.
Context {lib : GoLib}.

(** *** The configuration store *)

Lemma configFromFile_eq (w : world) :
  configFromFile w =
  match conf w with
  | None => Ok None w
  | Some content =>
      match json_Decode_config content with
      | Some cf => Ok (Some cf) w
      | None => Fatal (extend [Log ("Config file json error: " ++ err)] w)
      end
  end.
Proof.
  unfold configFromFile, bind, os_Open.
  destruct (conf w) as [content|]; [|reflexivity].
  destruct (json_Decode_config content); reflexivity.
Qed.

Lemma configFromFile_Ok (w w' : world) (cf : option config.t) :
  configFromFile w = Ok cf w' -> w' = w.
Proof.
  rewrite configFromFile_eq.
  destruct (conf w) as [content|]; [destruct (json_Decode_config content)|];
    congruence.
Qed.

Lemma configFromFile_not_Panic (w w' : world) : configFromFile w <> Panic w'.
Proof.
  rewrite configFromFile_eq.
  destruct (conf w) as [content|]; [destruct (json_Decode_config content)|];
    congruence.
Qed.

Lemma writeToFile_nil (c : config.t) (w : world) :
  conf w = None -> writeToFile c w = Panic w.
Proof.
  intros H. unfold writeToFile, bind. rewrite configFromFile_eq, H. reflexivity.
Qed.

Lemma persisted_eq (cur c : config.t) :
  (if (config.Apikey cur =? "")%string
   then config.mk "" (config.MigrationId c) (config.Domain c)
   else c) = persisted cur c.
Proof. unfold persisted. destruct c; simpl. now destruct (_ =? _)%string. Qed.

(** *** The merge of flags and stored configuration *)

Lemma mergeConfig_stored (fl : flag.t) (w : world) (c : config.t) :
  configFromFile w = Ok (Some c) w ->
  mergeConfig fl w =
  Ok (if (flag.apikey fl =? "")%string then config.Apikey c else flag.apikey fl,
      if (flag.status fl =? 0)%Z then config.MigrationId c else flag.status fl,
      if (flag.domain fl =? "")%string then config.Domain c else flag.domain fl)
     (extend (map Log (merge_logs fl)) w).
Proof.
  intros Hread. unfold mergeConfig, bind at 1. rewrite Hread.
  unfold merge_logs, bind, ret, log_Println, emit, record, extend.
  destruct w as [h cfile wr srv tr]; simpl.
  destruct (flag.apikey fl =? "")%string, (flag.status fl =? 0)%Z,
    (flag.domain fl =? "")%string; simpl;
    rewrite <- ?app_assoc, ?app_nil_r; reflexivity.
Qed.

Lemma mergeConfig_absent (fl : flag.t) (w : world) :
  configFromFile w = Ok None w ->
  mergeConfig fl w = Ok (flag.apikey fl, flag.status fl, flag.domain fl) w.
Proof.
  intros Hread. unfold mergeConfig, bind at 1. now rewrite Hread.
Qed.

Lemma mergeConfig_eq (fl : flag.t) (w : world) (cf : option config.t) :
  configFromFile w = Ok cf w ->
  exists merged logs,
    mergeConfig fl w = Ok merged (extend (map Log logs) w) /\
    precedence fl cf merged.
Proof.
  intros Hread. destruct cf as [c|].
  - eexists _, _. split; [apply mergeConfig_stored; exact Hread|].
    unfold precedence.
    destruct (String.eqb_spec (flag.apikey fl) ""), (Z.eqb_spec (flag.status fl) 0),
      (String.eqb_spec (flag.domain fl) "");
      repeat split; intros; try congruence;
      match goal with H : Some _ = Some _ |- _ => injection H as <- end;
      reflexivity.
  - exists (flag.apikey fl, flag.status fl, flag.domain fl), [].
    simpl. rewrite extend_nil. split; [now apply mergeConfig_absent|].
    unfold precedence. repeat split; intros; congruence.
Qed.

Lemma mergeConfig_cases (fl : flag.t) (w : world) :
  (exists merged logs,
     mergeConfig fl w = Ok merged (extend (map Log logs) w)) \/
  mergeConfig fl w = Fatal (extend [Log ("Config file json error: " ++ err)] w).
Proof.
  pose proof (configFromFile_eq w) as E.
  destruct (conf w) as [content|].
  - destruct (json_Decode_config content) as [c|].
    + left. destruct (mergeConfig_eq fl w _ E) as (m & logs & H & _). eauto.
    + right. unfold mergeConfig, bind at 1. now rewrite E.
  - left. destruct (mergeConfig_eq fl w _ E) as (m & logs & H & _). eauto.
Qed.

Lemma mergeConfig_frame (fl : flag.t) (w w1 : world) (m : string * Z * string) :
  mergeConfig fl w = Ok m w1 -> exists logs, w1 = extend (map Log logs) w.
Proof.
  intros H. destruct (mergeConfig_cases fl w) as [(m' & logs & E)|E];
    rewrite E in H; [|discriminate].
  exists logs. congruence.
Qed.

(** *** Checking the request and choosing the operation *)

Lemma verifyRequest_eq (req : request.t) (w : world) :
  verifyRequest req w =
  if (request.Apikey req =? "")%string
  then Fatal (extend [Usage; Log "You need a valid canvas API key"] w)
  else if (request.Domain req =? "")%string
  then Fatal (extend [Usage; Log "You must supply a canvas domain"] w)
  else Ok tt w.
Proof.
  unfold verifyRequest, errAndExit, bind, flag_Usage, emit, log_Fatalln, ret.
  destruct (request.Apikey req =? "")%string.
  - now rewrite !record_extend, extend_extend.
  - destruct (request.Domain req =? "")%string; [|reflexivity].
    now rewrite !record_extend, extend_extend.
Qed.

Lemma dispatch_eq (fl : flag.t) (a d : string) (s : Z) (w : world) :
  dispatch fl (a, s, d) w =
  if (a =? "")%string
  then Fatal (extend [Usage; Log "You need a valid canvas API key"] w)
  else if (d =? "")%string
  then Fatal (extend [Usage; Log "You must supply a canvas domain"] w)
  else if flag.available fl then printAvailable (request_of a d) w
  else if negb (flag.guid fl =? "")%string
  then importGuid (request_of a d) (flag.guid fl) w
  else if negb (s =? 0)%Z then getStatus (request_of a d) s w
  else Fatal (extend
         [Log "No recent migration ID, and none specified to query status on"] w).
Proof.
  unfold dispatch, bind at 1. rewrite verifyRequest_eq. simpl.
  destruct (a =? "")%string; [reflexivity|].
  destruct (d =? "")%string; [reflexivity|].
  destruct (flag.available fl); [reflexivity|].
  destruct (negb (flag.guid fl =? "")%string); [reflexivity|].
  destruct (negb (s =? 0)%Z); reflexivity.
Qed.

Lemma main_eq (fl : flag.t) (w w1 : world) (m : string * Z * string) :
  mergeConfig fl w = Ok m w1 -> main fl w = dispatch fl m w1.
Proof. intros H. unfold main, bind. now rewrite H. Qed.

(** *** Saving the configuration *)

Lemma writeToFile_eq (c : config.t) (w : world) :
  writeToFile c w =
  match conf w with
  | None => Panic w
  | Some content =>
      match json_Decode_config content with
      | None => Fatal (extend [Log ("Config file json error: " ++ err)] w)
      | Some cur =>
          match json_MarshalIndent (persisted cur c) with
          | None =>
              Fatal (extend
                [Log ("Error writing to " ++ (HOME w ++ "/" ++ ConfigFile))] w)
          | Some b => Ok tt (if writable w then written b w else unwritten b w)
          end
      end
  end.
Proof.
  unfold writeToFile, bind at 1. rewrite configFromFile_eq.
  destruct (conf w) as [content|]; [|reflexivity].
  destruct (json_Decode_config content) as [cur|]; [|reflexivity].
  unfold bind, deref, ret. rewrite persisted_eq.
  destruct (json_MarshalIndent (persisted cur c)) as [b|].
  - unfold ioutil_WriteFile. now destruct (writable w).
  - reflexivity.
Qed.

(** A save sends nothing and prints nothing. *)
Lemma writeToFile_quiet (c : config.t) (w : world) :
  requests (trace (final (writeToFile c w))) = requests (trace w) /\
  stdout (trace (final (writeToFile c w))) = stdout (trace w).
Proof.
  rewrite writeToFile_eq.
  destruct (conf w) as [content|]; [|split; reflexivity].
  destruct (json_Decode_config content) as [cur|].
  - destruct (json_MarshalIndent (persisted cur c)) as [b|].
    + destruct (writable w); split; reflexivity.
    + simpl. rewrite requests_app, stdout_app. simpl.
      now rewrite !app_nil_r.
  - simpl. rewrite requests_app, stdout_app. simpl. now rewrite !app_nil_r.
Qed.

(** *** Printing *)

Lemma printImportableGuids_eq (guids : list importableGuid.t) (w : world) :
  printImportableGuids guids w
  = Ok tt (extend (map Stdout (available_header :: map guid_line guids)) w).
Proof.
  unfold printImportableGuids, bind, fmt_Printf at 1, emit.
  rewrite (range_printf guid_line), record_extend, extend_extend. reflexivity.
Qed.

Lemma range_issues (l : list migrationIssue.t) (w : world) :
  range l (fun val =>
    fmt_Printf ("   - ID: " ++ itoa (migrationIssue.Id val) ++ nl) ;;
    fmt_Printf ("   - Link: " ++ migrationIssue.ErrorReportUrl val ++ nl) ;;
    fmt_Printf ("   - Issue type: " ++ migrationIssue.IssueType val ++ nl) ;;
    fmt_Printf ("   - Error message: " ++ migrationIssue.ErrorMessage val ++ nl) ;;
    fmt_Printf ("   - Description: " ++ migrationIssue.Description val ++ nl)) w
  = Ok tt (extend (map Stdout (concat (map issue_lines l))) w).
Proof.
  revert w; induction l as [|val l IH]; intros w.
  - simpl. unfold ret. now rewrite extend_nil.
  - cbn [range map concat]. unfold bind at 1. unfold bind at 1 2 3 4.
    unfold fmt_Printf at 1 2 3 4 5, emit. rewrite IH.
    rewrite !record_extend, !extend_extend, map_app. reflexivity.
Qed.

Lemma printMigrationStatus_eq (mstatus : migrationStatus.t) (w : world) :
  printMigrationStatus mstatus w =
  Ok tt (extend (map Stdout
                   (if (migrationStatus.Id mstatus =? 0)%Z
                    then [not_found_message]
                    else status_lines mstatus)) w).
Proof.
  unfold printMigrationStatus.
  destruct (migrationStatus.Id mstatus =? 0)%Z.
  - reflexivity.
  - unfold bind at 1 2 3 4. unfold fmt_Printf at 1 2 3 4, emit.
    rewrite range_issues, !record_extend, !extend_extend.
    unfold status_lines. rewrite map_app. reflexivity.
Qed.

Lemma printImportResults_eq (nimport : newImport.t) (w : world) :
  printImportResults nimport w = Ok tt (extend [Stdout (import_line nimport)] w).
Proof. reflexivity. Qed.

(** *** The three operations, step by step *)

Lemma httpRequest_eq (req : request.t) (w : world) :
  httpRequest req w =
  match url_Parse (request.Domain req ++ request.Endpoint req) with
  | None => Fatal (extend [Log err] w)
  | Some u =>
      Ok (http.mk (request.Method req) u (request.Body req)
                  ("Bearer " ++ request.Apikey req)) w
  end.
Proof. unfold httpRequest. now destruct (url_Parse _). Qed.

Lemma getAvailable_eq (req : request.t) (w : world) :
  getAvailable req w =
  match url_Parse (available_url req) with
  | None => Fatal (extend [Log err] w)
  | Some u =>
      let h := available_request req u in
      let w1 := extend [Log ("Requesting available guids from " ++ u); Do h] w in
      match server w h with
      | None => Fatal (extend [Log err] w1)
      | Some body =>
          match json_Decode_guids body with
          | None => Fatal (extend [Log err] w1)
          | Some guids => Ok guids w1
          end
      end
  end.
Proof.
  unfold getAvailable, bind at 1. rewrite httpRequest_eq.
  cbn [request.Domain request.Endpoint request.Method request.Body request.Apikey].
  fold (available_url req).
  destruct (url_Parse (available_url req)) as [u|]; [|reflexivity].
  unfold bind, log_Println, emit, client_Do, log_Fatalln, ret.
  cbn [http.URL server record]. fold (available_request req u).
  rewrite !record_extend, !extend_extend. cbn [app].
  destruct (server w (available_request req u)) as [body|].
  - destruct (json_Decode_guids body); [reflexivity|].
    same_world.
  - same_world.
Qed.

Lemma getAvailable_not_Panic (req : request.t) (w w1 : world) :
  getAvailable req w <> Panic w1.
Proof.
  rewrite getAvailable_eq.
  destruct (url_Parse _) as [u|]; [|discriminate]. cbv zeta.
  destruct (server w _) as [body|]; [|discriminate].
  destruct (json_Decode_guids body); discriminate.
Qed.

(** A fetch that succeeds sent exactly the GET of the available list and
    left the file, the server and standard output as they were. *)
Lemma getAvailable_Ok (req : request.t) (w w1 : world)
    (guids : list importableGuid.t) :
  getAvailable req w = Ok guids w1 ->
  exists u,
    url_Parse (available_url req) = Some u /\
    w1 = extend [Log ("Requesting available guids from " ++ u);
                 Do (available_request req u)] w.
Proof.
  rewrite getAvailable_eq.
  destruct (url_Parse _) as [u|]; [|discriminate]. cbv zeta.
  destruct (server w _) as [body|]; [|discriminate].
  destruct (json_Decode_guids body); [|discriminate].
  intros [= _ <-]. now exists u.
Qed.

Lemma getStatus_eq (req : request.t) (migrationId : Z) (w : world) :
  getStatus req migrationId w =
  match url_Parse (status_url req migrationId) with
  | None => Fatal (extend [Log err] w)
  | Some u =>
      let h := status_request req u in
      let w1 :=
        extend [Log ("Retrieving status for migration " ++ itoa migrationId);
                Do h] w in
      match server w h with
      | None => Fatal (extend [Log err] w1)
      | Some body =>
          match json_Decode_status body with
          | None => Fatal (extend [Log err] w1)
          | Some mstatus =>
              writeToFile
                (config.mk (request.Apikey req) migrationId (request.Domain req))
                (extend (map Stdout
                           (if (migrationStatus.Id mstatus =? 0)%Z
                            then [not_found_message]
                            else status_lines mstatus)) w1)
          end
      end
  end.
Proof.
  unfold getStatus, bind at 1. rewrite httpRequest_eq.
  cbn [request.Domain request.Endpoint request.Method request.Body request.Apikey].
  fold (status_url req migrationId).
  destruct (url_Parse (status_url req migrationId)) as [u|]; [|reflexivity].
  unfold bind at 1 2, log_Println, emit, client_Do, log_Fatalln.
  cbn [http.URL server record]. fold (status_request req u).
  rewrite !record_extend, !extend_extend. cbn [app].
  destruct (server w (status_request req u)) as [body|].
  - destruct (json_Decode_status body) as [mstatus|].
    + unfold bind. now rewrite printMigrationStatus_eq.
    + same_world.
  - same_world.
Qed.

(** What an import does once the list is fetched and the guid settled
    (lines 237-259). *)
Lemma importGuid_eq (req : request.t) (guid : string) (w : world) :
  importGuid req guid w =
  match getAvailable req w with
  | Ok guids w1 =>
      let guid' := titleToGuid guids guid in
      match url_Parse (import_url req) with
      | None => Fatal (extend [Log err] w1)
      | Some u =>
          let h := import_request req u guid' in
          let w2 :=
            extend [Log ("Requesting import of GUID " ++ guid'); Do h] w1 in
          match server w1 h with
          | None => Fatal (extend [Log err] w2)
          | Some body =>
              match json_Decode_import body with
              | None => Fatal (extend [Log err] w2)
              | Some nimport =>
                  writeToFile
                    (config.mk (request.Apikey req)
                               (newImport.MigrationId nimport)
                               (request.Domain req))
                    (extend [Stdout (import_line nimport)] w2)
              end
          end
      end
  | Fatal w1 => Fatal w1
  | Panic w1 => Panic w1
  end.
Proof.
  unfold importGuid, bind at 1.
  destruct (getAvailable req w) as [guids w1|w1|w1]; [|reflexivity|reflexivity].
  cbv zeta. unfold bind at 1. rewrite httpRequest_eq.
  cbn [request.Domain request.Endpoint request.Method request.Body request.Apikey].
  fold (import_url req).
  destruct (url_Parse (import_url req)) as [u|]; [|reflexivity].
  unfold bind at 1 2, log_Println, emit, client_Do, log_Fatalln.
  cbn [http.URL server record].
  fold (import_request req u (titleToGuid guids guid)).
  rewrite !record_extend, !extend_extend. cbn [app].
  destruct (server w1 _) as [body|].
  - destruct (json_Decode_import body) as [nimport|].
    + unfold bind. rewrite printImportResults_eq. same_world.
    + same_world.
  - same_world.
Qed.

Lemma printAvailable_eq (req : request.t) (w : world) :
  printAvailable req w =
  match getAvailable req w with
  | Ok guids w1 =>
      let w2 :=
        extend (map Stdout (available_header :: map guid_line guids)) w1 in
      match conf w1 with
      | None => Panic w2
      | Some content =>
          match json_Decode_config content with
          | None => Fatal (extend [Log ("Config file json error: " ++ err)] w2)
          | Some cur =>
              writeToFile
                (config.mk (request.Apikey req) (config.MigrationId cur)
                           (request.Domain req)) w2
          end
      end
  | Fatal w1 => Fatal w1
  | Panic w1 => Panic w1
  end.
Proof.
  unfold printAvailable, bind at 1.
  destruct (getAvailable req w) as [guids w1|w1|w1]; [|reflexivity|reflexivity].
  unfold bind at 1. rewrite printImportableGuids_eq.
  unfold bind at 1. rewrite configFromFile_eq. cbn [conf extend].
  destruct (conf w1) as [content|]; [|reflexivity].
  destruct (json_Decode_config content) as [cur|]; reflexivity.
Qed.

Lemma extend_logs_quiet (logs : list string) (w : world) :
  conf (extend (map Log logs) w) = conf w /\
  requests (trace (extend (map Log logs) w)) = requests (trace w) /\
  stdout (trace (extend (map Log logs) w)) = stdout (trace w).
Proof.
  cbn [conf trace extend]. rewrite requests_app, stdout_app.
  assert (requests (map Log logs) = [] /\ stdout (map Log logs) = []) as [-> ->].
  { induction logs as [|l logs [IH1 IH2]]; simpl; auto. }
  now rewrite !app_nil_r.
Qed.

(** *** Title resolution of an import *)

Lemma titleToGuid_resolved (guids : list importableGuid.t) (guid : string) :
  resolved guids guid (titleToGuid guids guid).
Proof.
  induction guids as [|val rest IH]; simpl.
  - right. split; [intros e []|reflexivity].
  - destruct (String.eqb_spec (importableGuid.Title val) guid) as [E|N].
    + left. exists val. split; [now left|]. split; [exact E|reflexivity].
    + destruct IH as [(e & Hin & Ht & Hg)|(Hall & Hg)].
      * left. exists e. split; [now right|]. now split.
      * right. split; [|exact Hg].
        intros e [<-|Hin]; [exact N|now apply Hall].
Qed.

Lemma getAvailable_Fatal (req : request.t) (w w1 : world) :
  getAvailable req w = Fatal w1 ->
  requests (trace w1) = requests (trace w) \/
  exists u, requests (trace w1) = requests (trace w) ++ [available_request req u].
Proof.
  rewrite getAvailable_eq.
  destruct (url_Parse _) as [u|].
  - cbv zeta. intros H. right. exists u.
    assert (w1 = extend [Log err]
                   (extend [Log ("Requesting available guids from " ++ u);
                            Do (available_request req u)] w)) as ->.
    { destruct (server w _) as [body|]; [|congruence].
      destruct (json_Decode_guids body); congruence. }
    cbn [trace extend]. rewrite !requests_app. cbn [requests].
    now rewrite app_nil_r.
  - intros [= <-]. left. cbn [trace extend]. rewrite requests_app.
    cbn [requests]. now rewrite app_nil_r.
Qed.

(** C4: an import first fetches the available list: once the list's URL
    parses, the GET of the list goes out before anything else, whatever
    the supplied value is.  When the server answers it and the answer
    decodes to a list, the POST that follows carries [guid=<g>] where [g]
    is the guid of an entry of that list whose title is exactly the
    supplied value, or the supplied value unchanged when no entry has
    that title.  When the URL does not parse nothing is sent, and when
    the server does not answer or the answer does not decode the import
    stops after the GET, with no POST. *)
Theorem importGuid_title_resolution (req : request.t) (guid : string) (w : world) :
  match url_Parse (available_url req) with
  | None => importGuid req guid w = Fatal (extend [Log err] w)
  | Some u0 =>
      let get := available_request req u0 in
      let w1 :=
        extend [Log ("Requesting available guids from " ++ u0); Do get] w in
      match server w get with
      | None => importGuid req guid w = Fatal (extend [Log err] w1)
      | Some body0 =>
          match json_Decode_guids body0 with
          | None => importGuid req guid w = Fatal (extend [Log err] w1)
          | Some guids =>
              exists guid',
                resolved guids guid guid' /\
                match url_Parse (import_url req) with
                | None => importGuid req guid w = Fatal (extend [Log err] w1)
                | Some u =>
                    requests (trace (final (importGuid req guid w)))
                    = requests (trace w)
                      ++ [get; import_request req u guid']
                end
          end
      end
  end.
Proof.
  rewrite importGuid_eq, getAvailable_eq.
  destruct (url_Parse (available_url req)) as [u0|]; [|reflexivity].
  cbv zeta.
  destruct (server w _) as [body0|]; [|reflexivity].
  destruct (json_Decode_guids body0) as [guids|]; [|reflexivity].
  exists (titleToGuid guids guid). split; [apply titleToGuid_resolved|].
  destruct (url_Parse (import_url req)) as [u|]; [|reflexivity].
  destruct (server _ _) as [body|];
    [destruct (json_Decode_import body) as [nimport|]|];
    rewrite ?(proj1 (writeToFile_quiet _ _)); cbn [final trace extend];
    rewrite !requests_app; cbn [requests];
    rewrite <- ?app_assoc, ?app_nil_r; reflexivity.
Qed.

(** *** Merge precedence *)

(** C6: for each of the api key, the migration id and the domain, a flag
    that is not the zero value wins over the stored value, a zero flag
    takes the stored value when a configuration file is present, and the
    field stays empty (zero) when flag and file are both absent; [main]
    goes on with these values. *)
Theorem mergeConfig_precedence (fl : flag.t) (w : world) (cf : option config.t) :
  configFromFile w = Ok cf w ->
  exists merged w',
    mergeConfig fl w = Ok merged w' /\
    conf w' = conf w /\
    precedence fl cf merged /\
    main fl w = dispatch fl merged w'.
Proof.
  intros Hread.
  destruct (mergeConfig_eq fl w cf Hread) as (merged & logs & Hm & Hp).
  exists merged, (extend (map Log logs) w).
  split; [exact Hm|]. split; [reflexivity|]. split; [exact Hp|].
  now apply main_eq.
Qed.

(** *** The choice of the operation *)

(** C10: with the request accepted, [-available] runs the listing whatever
    the other flags are; without it a non-empty [-guid] runs the import
    whatever the migration id is; without both a non-zero migration id
    runs the status query.  The run is the run of that one operation. *)
Theorem dispatch_priority (fl : flag.t) (w w1 : world) (a d : string) (s : Z) :
  mergeConfig fl w = Ok (a, s, d) w1 ->
  a <> "" -> d <> "" ->
  (flag.available fl = true ->
     main fl w = printAvailable (request_of a d) w1) /\
  (flag.available fl = false -> flag.guid fl <> "" ->
     main fl w = importGuid (request_of a d) (flag.guid fl) w1) /\
  (flag.available fl = false -> flag.guid fl = "" -> s <> 0%Z ->
     main fl w = getStatus (request_of a d) s w1).
Proof.
  intros Hm Ha Hd. rewrite (main_eq _ _ _ _ Hm), dispatch_eq.
  apply String.eqb_neq in Ha, Hd. rewrite Ha, Hd.
  repeat split.
  - now intros ->.
  - intros -> Hg. apply String.eqb_neq in Hg. now rewrite Hg.
  - intros -> -> Hs. apply Z.eqb_neq in Hs. now rewrite Hs.
Qed.

(** Every run either stops before any operation, or is the run of one
    operation from the world the merge left. *)
Lemma main_one_operation (fl : flag.t) (w : world) :
  (exists w', main fl w = Fatal w' /\ conf w' = conf w /\
              requests (trace w') = requests (trace w) /\
              stdout (trace w') = stdout (trace w)) \/
  (exists op req w1, main fl w = run req op w1 /\ conf w1 = conf w /\
                     requests (trace w1) = requests (trace w) /\
                     stdout (trace w1) = stdout (trace w)).
Proof.
  destruct (mergeConfig_cases fl w) as [([[a s] d] & logs & Hm)|Hm].
  - rewrite (main_eq _ _ _ _ Hm), dispatch_eq.
    destruct (extend_logs_quiet logs w) as (Hc & Hr & Hs).
    assert (forall evs, requests evs = [] -> stdout evs = [] ->
              exists w', Fatal (extend evs (extend (map Log logs) w))
                         = @Fatal unit w' /\ conf w' = conf w /\
                requests (trace w') = requests (trace w) /\
                stdout (trace w') = stdout (trace w)) as Hstop.
    { intros evs Hre Hse. eexists. split; [reflexivity|].
      cbn [conf trace extend].
      rewrite !requests_app, !stdout_app, Hre, Hse, !app_nil_r.
      cbn [conf trace extend] in Hr, Hs. rewrite requests_app in Hr.
      rewrite stdout_app in Hs. now rewrite Hr, Hs. }
    destruct (a =? "")%string; [left; now apply Hstop|].
    destruct (d =? "")%string; [left; now apply Hstop|].
    destruct (flag.available fl).
    { right. exists ListAvailable, (request_of a d), (extend (map Log logs) w).
      now repeat split. }
    destruct (negb (flag.guid fl =? "")%string).
    { right. exists (Import (flag.guid fl)), (request_of a d),
        (extend (map Log logs) w). now repeat split. }
    destruct (negb (s =? 0)%Z).
    { right. exists (Status s), (request_of a d), (extend (map Log logs) w).
      now repeat split. }
    left. now apply Hstop.
  - left. unfold main, bind. rewrite Hm. eexists. split; [reflexivity|].
    cbn [conf trace extend]. rewrite requests_app, stdout_app. simpl.
    now rewrite !app_nil_r.
Qed.

(** C9 (amended): every run performs at most one of the three operations;
    when [-available] is not given, [-guid] is empty and the merged
    migration id is zero, the run ends in a fatal error (exit status 1)
    with no request sent, nothing printed and the file untouched.  The
    usage text comes before the fatal message exactly when the merged api
    key or domain is empty; otherwise the message alone is logged. *)
Theorem no_action_is_fatal :
  (forall fl w,
     (exists w', main fl w = Fatal w' /\ conf w' = conf w /\
                 requests (trace w') = requests (trace w) /\
                 stdout (trace w') = stdout (trace w)) \/
     (exists op req w1, main fl w = run req op w1 /\ conf w1 = conf w /\
                        requests (trace w1) = requests (trace w) /\
                        stdout (trace w1) = stdout (trace w))) /\
  (forall fl w a d w1,
     flag.available fl = false -> flag.guid fl = "" ->
     mergeConfig fl w = Ok (a, 0%Z, d) w1 ->
     exists w',
       main fl w = Fatal w' /\ exit_status (main fl w) = 1%Z /\
       conf w' = conf w /\
       requests (trace w') = requests (trace w) /\
       stdout (trace w') = stdout (trace w) /\
       (a = "" \/ d = "" ->
          exists msg, trace w' = trace w1 ++ [Usage; Log msg]) /\
       (a <> "" -> d <> "" ->
          trace w' = trace w1 ++
            [Log "No recent migration ID, and none specified to query status on"])).
Proof.
  split; [exact main_one_operation|].
  intros fl w a d w1 Hav Hg Hm.
  destruct (mergeConfig_frame _ _ _ _ Hm) as (logs & ->).
  destruct (extend_logs_quiet logs w) as (Hc & Hr & Hs).
  cbn [conf trace extend] in Hr, Hs.
  rewrite requests_app in Hr. rewrite stdout_app in Hs.
  rewrite (main_eq _ _ _ _ Hm), dispatch_eq, Hav, Hg. cbn [negb String.eqb Z.eqb].
  destruct (String.eqb_spec a "") as [Ea|Na];
    [|destruct (String.eqb_spec d "") as [Ed|Nd]];
    (eexists; split; [reflexivity|]; split; [reflexivity|];
     cbn [conf trace extend];
     rewrite !requests_app, !stdout_app; cbn [requests stdout];
     rewrite Hr, Hs, !app_nil_r;
     repeat split; try reflexivity).
  - intros _. eexists. reflexivity.
  - intros Ha. congruence.
  - intros _. eexists. reflexivity.
  - intros _ Hd. congruence.
  - intros [Ha|Hd]; congruence.
Qed.

(** *** What the operations persist *)

(** C1 (the code at the failing input): with no configuration file, a save
    of any value ends in a run-time panic, the nil dereference of
    [current.Apikey], and leaves no file. *)
Theorem save_without_prior_file_panics (c : config.t) (home : string)
    (wr : bool) (srv : http.Request -> option string) (tr : list event) :
  writeToFile c (mkWorld home None wr srv tr) = Panic (mkWorld home None wr srv tr).
Proof. now apply writeToFile_nil. Qed.

(** The half of the retention rule the code keeps: over a stored
    configuration whose key is empty, a save that goes through writes the
    serialisation of a value whose key is empty. *)
Lemma save_over_empty_key (c cur : config.t) (w : world) :
  configFromFile w = Ok (Some cur) w ->
  config.Apikey cur = "" ->
  writable w = true ->
  match json_MarshalIndent (config.mk "" (config.MigrationId c) (config.Domain c)) with
  | Some b => writeToFile c w = Ok tt (written b w)
  | None => exists w', writeToFile c w = Fatal w' /\ conf w' = conf w
  end.
Proof.
  intros Hread Hkey Hw. rewrite writeToFile_eq.
  rewrite configFromFile_eq in Hread.
  destruct (conf w) as [content|] eqn:Hc; [|discriminate].
  destruct (json_Decode_config content) as [cur'|]; [|discriminate].
  injection Hread as ->. unfold persisted. rewrite Hkey. cbn [String.eqb].
  destruct (json_MarshalIndent _) as [b|].
  - now rewrite Hw.
  - eexists. split; [reflexivity|]. exact Hc.
Qed.

(** C7 (amended): a listing whose answer arrives and decodes prints the
    header and then one line [<guid> - <title>] per entry, in the order
    received, whatever happens to the save; over a stored configuration
    that can be written, it ends normally and persists the request's
    domain and the stored migration id, and the request's api key only
    when the stored key is not empty (an empty key otherwise).  An answer
    that decodes to the entries [g1]/[Math] and [g2]/[Science] gives the
    lines [g1 - Math] and [g2 - Science]. *)
Theorem printAvailable_persists :
  (forall req w u body guids,
     url_Parse (available_url req) = Some u ->
     server w (available_request req u) = Some body ->
     json_Decode_guids body = Some guids ->
     stdout (trace (final (printAvailable req w)))
     = stdout (trace w) ++ available_header :: map guid_line guids /\
     (forall cur b,
        configFromFile w = Ok (Some cur) w ->
        json_MarshalIndent
          (config.mk (if (config.Apikey cur =? "")%string then ""
                      else request.Apikey req)
                     (config.MigrationId cur) (request.Domain req)) = Some b ->
        writable w = true ->
        exists w', printAvailable req w = Ok tt w' /\ conf w' = Some b)) /\
  (forall req w u body,
     url_Parse (available_url req) = Some u ->
     server w (available_request req u) = Some body ->
     json_Decode_guids body
     = Some [importableGuid.mk "Math" "g1"; importableGuid.mk "Science" "g2"] ->
     stdout (trace (final (printAvailable req w)))
     = stdout (trace w) ++ [available_header; ("g1 - Math" ++ nl)%string;
                            ("g2 - Science" ++ nl)%string]).
Proof.
  assert (forall req w u body guids,
            url_Parse (available_url req) = Some u ->
            server w (available_request req u) = Some body ->
            json_Decode_guids body = Some guids ->
            stdout (trace (final (printAvailable req w)))
            = stdout (trace w) ++ available_header :: map guid_line guids) as Hout.
  { intros req w u body guids Hu Hs Hd.
    rewrite printAvailable_eq, getAvailable_eq, Hu. cbv zeta. rewrite Hs, Hd.
    cbn [conf extend].
    assert (forall evs,
              stdout (trace (extend (map Stdout
                         (available_header :: map guid_line guids))
                       (extend [Log ("Requesting available guids from " ++ u);
                                Do (available_request req u)] w)) ++ evs)
              = (stdout (trace w) ++ available_header :: map guid_line guids)
                ++ stdout evs) as K.
    { intros evs. cbn [trace extend].
      rewrite !stdout_app, stdout_map_Stdout. cbn [stdout].
      now rewrite app_nil_r. }
    destruct (conf w) as [content|].
    - destruct (json_Decode_config content) as [cur|].
      + rewrite (proj2 (writeToFile_quiet _ _)).
        specialize (K []). rewrite !app_nil_r in K. exact K.
      + cbn [final]. change (trace (extend ?e ?x)) with (trace x ++ e) at 1.
        rewrite K. cbn [stdout]. now rewrite app_nil_r.
    - cbn [final]. specialize (K []). rewrite !app_nil_r in K. exact K. }
  split.
  - intros req w u body guids Hu Hs Hd.
    split; [now apply (Hout req w u body)|].
    intros cur b Hread Hm Hw.
    rewrite printAvailable_eq, getAvailable_eq, Hu. cbv zeta. rewrite Hs, Hd.
    rewrite configFromFile_eq in Hread. cbn [conf extend].
    destruct (conf w) as [content|] eqn:Hc; [|discriminate].
    destruct (json_Decode_config content) as [cur'|] eqn:Hdc; [|discriminate].
    injection Hread as ->.
    rewrite writeToFile_eq. cbn [conf writable HOME extend]. rewrite Hc, Hdc.
    unfold persisted at 1.
    cbn [config.Apikey config.MigrationId config.Domain].
    rewrite Hm, Hw. eexists. split; reflexivity.
  - intros req w u body Hu Hs Hd. exact (Hout req w u body _ Hu Hs Hd).
Qed.

(** Supporting C5: over a stored configuration that can be written, a
    status query whose answer decodes prints the not-found message when
    the id is 0 and the status lines otherwise, ends normally and
    persists the queried migration id. *)
Lemma getStatus_persists (req : request.t) (migrationId : Z) (w : world)
    (u body b : string) (mstatus : migrationStatus.t) (cur : config.t) :
  url_Parse (status_url req migrationId) = Some u ->
  server w (status_request req u) = Some body ->
  json_Decode_status body = Some mstatus ->
  configFromFile w = Ok (Some cur) w ->
  json_MarshalIndent
    (persisted cur (config.mk (request.Apikey req) migrationId
                              (request.Domain req))) = Some b ->
  writable w = true ->
  exists w',
    getStatus req migrationId w = Ok tt w' /\
    stdout (trace w') = stdout (trace w) ++
      (if (migrationStatus.Id mstatus =? 0)%Z then [not_found_message]
       else status_lines mstatus) /\
    conf w' = Some b.
Proof.
  intros Hu Hs Hd Hread Hm Hw.
  rewrite getStatus_eq, Hu. cbv zeta. rewrite Hs, Hd.
  rewrite configFromFile_eq in Hread.
  destruct (conf w) as [content|] eqn:Hc; [|discriminate].
  destruct (json_Decode_config content) as [cur'|] eqn:Hdc; [|discriminate].
  injection Hread as ->.
  rewrite writeToFile_eq. cbn [conf writable HOME extend].
  rewrite Hc, Hdc, Hm, Hw. eexists. split; [reflexivity|].
  cbn [trace conf written extend]. split; [|reflexivity].
  rewrite !stdout_app, stdout_map_Stdout. cbn [stdout].
  now rewrite app_nil_r.
Qed.

(** Supporting C8: over a stored configuration that can be written, an
    import whose answer decodes prints [Migration ID is <id>], ends
    normally and persists the returned migration id. *)
Lemma importGuid_persists (req : request.t) (guid : string) (w w1 : world)
    (guids : list importableGuid.t) (u body b : string)
    (nimport : newImport.t) (cur : config.t) :
  getAvailable req w = Ok guids w1 ->
  url_Parse (import_url req) = Some u ->
  server w (import_request req u (titleToGuid guids guid)) = Some body ->
  json_Decode_import body = Some nimport ->
  configFromFile w = Ok (Some cur) w ->
  json_MarshalIndent
    (persisted cur (config.mk (request.Apikey req)
                              (newImport.MigrationId nimport)
                              (request.Domain req))) = Some b ->
  writable w = true ->
  exists w',
    importGuid req guid w = Ok tt w' /\
    stdout (trace w') = stdout (trace w) ++ [import_line nimport] /\
    conf w' = Some b.
Proof.
  intros Hget Hu Hs Hd Hread Hm Hw.
  rewrite importGuid_eq, Hget.
  apply getAvailable_Ok in Hget as (u0 & _ & ->).
  cbv zeta. rewrite Hu. cbn [server extend]. rewrite Hs, Hd.
  rewrite configFromFile_eq in Hread.
  destruct (conf w) as [content|] eqn:Hc; [|discriminate].
  destruct (json_Decode_config content) as [cur'|] eqn:Hdc; [|discriminate].
  injection Hread as ->.
  rewrite writeToFile_eq. cbn [conf writable HOME extend].
  rewrite Hc, Hdc, Hm, Hw. eexists. split; [reflexivity|].
  cbn [trace conf written extend]. split; [|reflexivity].
  rewrite !stdout_app. cbn [stdout]. now rewrite !app_nil_r.
Qed.

(** *** How a run ends *)

Lemma getAvailable_Fatal_shape (req : request.t) (w w1 : world) :
  getAvailable req w = Fatal w1 -> exists evs, w1 = extend evs w.
Proof.
  rewrite getAvailable_eq.
  destruct (url_Parse _) as [u|]; cbv zeta.
  - destruct (server w _) as [body|]; [destruct (json_Decode_guids body)|];
      intros [= <-]; eexists; rewrite ?extend_extend; reflexivity.
  - intros [= <-]. eexists. reflexivity.
Qed.

Lemma shape_extend (req : request.t) (r : result unit) (evs : list event)
    (w : world) :
  stops_or_saves req r (extend evs w) -> stops_or_saves req r w.
Proof.
  intros [(e & ->)|[(e & Hc & ->)|(e & mid & ->)]]; rewrite extend_extend.
  - left. eauto.
  - right. left. eauto.
  - right. right. eauto.
Qed.

Lemma getStatus_shape (req : request.t) (migrationId : Z) (w : world) :
  stops_or_saves req (getStatus req migrationId w) w.
Proof.
  rewrite getStatus_eq.
  destruct (url_Parse _) as [u|]; [|left; eauto]. cbv zeta.
  destruct (server w _) as [body|].
  - destruct (json_Decode_status body) as [mstatus|].
    + right. right. rewrite extend_extend. eauto.
    + left. rewrite extend_extend. eauto.
  - left. rewrite extend_extend. eauto.
Qed.

Lemma importGuid_shape (req : request.t) (guid : string) (w : world) :
  stops_or_saves req (importGuid req guid w) w.
Proof.
  rewrite importGuid_eq.
  destruct (getAvailable req w) as [guids w1|w1|w1] eqn:Hget.
  - apply getAvailable_Ok in Hget as (u0 & _ & ->). cbv zeta.
    destruct (url_Parse (import_url req)) as [u|].
    + destruct (server _ _) as [body|].
      * destruct (json_Decode_import body) as [nimport|].
        -- right. right. rewrite !extend_extend. eauto.
        -- left. rewrite !extend_extend. eauto.
      * left. rewrite !extend_extend. eauto.
    + left. rewrite !extend_extend. eauto.
  - apply getAvailable_Fatal_shape in Hget as (evs & ->). left. eauto.
  - now apply getAvailable_not_Panic in Hget.
Qed.

Lemma printAvailable_shape (req : request.t) (w : world) :
  stops_or_saves req (printAvailable req w) w.
Proof.
  rewrite printAvailable_eq.
  destruct (getAvailable req w) as [guids w1|w1|w1] eqn:Hget.
  - apply getAvailable_Ok in Hget as (u0 & _ & ->). cbv zeta.
    cbn [conf extend].
    destruct (conf w) as [content|] eqn:Hc.
    + destruct (json_Decode_config content) as [cur|].
      * right. right. rewrite !extend_extend. eauto.
      * left. rewrite !extend_extend. eauto.
    + right. left. rewrite !extend_extend. eauto.
  - apply getAvailable_Fatal_shape in Hget as (evs & ->). left. eauto.
  - now apply getAvailable_not_Panic in Hget.
Qed.

Lemma main_shape (fl : flag.t) (w : world) :
  (exists evs, main fl w = Fatal (extend evs w)) \/
  (exists a s d w1,
     mergeConfig fl w = Ok (a, s, d) w1 /\ a <> "" /\ d <> "" /\
     stops_or_saves (request_of a d) (main fl w) w).
Proof.
  destruct (mergeConfig_cases fl w) as [([[a s] d] & logs & Hm)|Hm].
  - rewrite (main_eq _ _ _ _ Hm), dispatch_eq.
    destruct (String.eqb_spec a "") as [Ea|Na];
      [left; rewrite extend_extend; eauto|].
    destruct (String.eqb_spec d "") as [Ed|Nd];
      [left; rewrite extend_extend; eauto|].
    destruct (flag.available fl).
    { right. exists a, s, d, (extend (map Log logs) w).
      repeat split; try assumption.
      apply (shape_extend _ _ (map Log logs)), printAvailable_shape. }
    destruct (negb (flag.guid fl =? "")%string).
    { right. exists a, s, d, (extend (map Log logs) w).
      repeat split; try assumption.
      apply (shape_extend _ _ (map Log logs)), importGuid_shape. }
    destruct (negb (s =? 0)%Z).
    { right. exists a, s, d, (extend (map Log logs) w).
      repeat split; try assumption.
      apply (shape_extend _ _ (map Log logs)), getStatus_shape. }
    left. rewrite extend_extend. eauto.
  - left. unfold main, bind. rewrite Hm. eauto.
Qed.

(** The three ways a run ends: a fatal error, the panic on the missing
    file, or a normal end after the save over a stored configuration. *)
Lemma main_outcome (fl : flag.t) (w : world) :
  (exists evs, main fl w = Fatal (extend evs w)) \/
  (exists evs, conf w = None /\ main fl w = Panic (extend evs w)) \/
  (exists evs content cur a s d w1 mid b,
     mergeConfig fl w = Ok (a, s, d) w1 /\ a <> "" /\ d <> "" /\
     conf w = Some content /\ json_Decode_config content = Some cur /\
     json_MarshalIndent
       (persisted cur (config.mk a mid (normalizeDomain d))) = Some b /\
     main fl w = Ok tt (if writable w then written b (extend evs w)
                        else unwritten b (extend evs w))).
Proof.
  destruct (main_shape fl w) as [H|(a & s & d & w1 & Hm & Ha & Hd & H)];
    [now left|].
  destruct H as [(e & ->)|[(e & Hc & ->)|(e & mid & ->)]].
  - left. eauto.
  - right. left. eauto.
  - rewrite writeToFile_eq. cbn [conf writable HOME extend request_of
      request.Apikey request.Domain].
    destruct (conf w) as [content|] eqn:Hc.
    + destruct (json_Decode_config content) as [cur|] eqn:Hdec.
      * destruct (json_MarshalIndent _) as [b|] eqn:Hb.
        -- right. right. exists e, content, cur, a, s, d, w1, mid, b.
           repeat split; try assumption.
        -- left. rewrite extend_extend. eauto.
      * left. rewrite extend_extend. eauto.
    + right. left. eauto.
Qed.

(** X5: with an empty merged api key the run prints the usage text and
    ends in the fatal error about the key, before anything is sent and
    whatever action is requested; the domain is looked at only after the
    key. *)
Theorem missing_credentials_are_fatal (fl : flag.t) (w w1 : world)
    (a d : string) (s : Z) :
  mergeConfig fl w = Ok (a, s, d) w1 ->
  (a = "" ->
     main fl w = Fatal (extend [Usage; Log "You need a valid canvas API key"] w1)) /\
  (a <> "" -> d = "" ->
     main fl w = Fatal (extend [Usage; Log "You must supply a canvas domain"] w1)).
Proof.
  intros Hm. rewrite (main_eq _ _ _ _ Hm), dispatch_eq. split.
  - now intros ->.
  - intros Ha ->. apply String.eqb_neq in Ha. now rewrite Ha.
Qed.

(** X6: a configuration file that does not decode ends every run in a
    fatal error before the flags are looked at: nothing is sent and the
    file stays. *)
Theorem malformed_config_is_fatal (fl : flag.t) (w : world) (content : string) :
  conf w = Some content -> json_Decode_config content = None ->
  main fl w = Fatal (extend [Log ("Config file json error: " ++ err)] w).
Proof.
  intros Hc Hd. unfold main, bind at 1, mergeConfig, bind at 1.
  now rewrite configFromFile_eq, Hc, Hd.
Qed.

(** X7: with a configuration file in place, whatever it holds, no run
    panics. *)
Theorem no_panic_with_file (fl : flag.t) (w : world) (content : string) :
  conf w = Some content -> forall w', main fl w <> Panic w'.
Proof.
  intros Hc w'.
  destruct (main_outcome fl w)
    as [(e & ->)|[(e & Hn & _)|(e & c0 & cur & a & s & d & w1 & mid & b & H)]].
  - discriminate.
  - congruence.
  - destruct H as (_ & _ & _ & _ & _ & _ & ->). discriminate.
Qed.

(** X8: without a configuration file no run ends normally, and none
    creates the file. *)
Theorem first_run_never_succeeds (fl : flag.t) (w : world) :
  conf w = None ->
  (forall w', main fl w <> Ok tt w') /\ conf (final (main fl w)) = None.
Proof.
  intros Hc.
  destruct (main_outcome fl w)
    as [(e & ->)|[(e & _ & ->)|(e & c0 & cur & a & s & d & w1 & mid & b & H)]].
  - split; [discriminate|exact Hc].
  - split; [discriminate|exact Hc].
  - destruct H as (_ & _ & _ & Hs & _). congruence.
Qed.

(** X9: a run that ends in a fatal error or a panic leaves the
    configuration file as it was; a run that ends normally made exactly
    one write, of a serialised configuration, and the file holds that
    text when the write went through and what the failed write left
    otherwise. *)
Theorem failed_run_keeps_file (fl : flag.t) (w : world) :
  match main fl w with
  | Ok _ w' =>
      exists c b,
        json_MarshalIndent c = Some b /\
        conf w' = (if writable w then Some b else WriteFile_leaves (conf w) b)
  | Fatal w' => conf w' = conf w
  | Panic w' => conf w' = conf w
  end.
Proof.
  destruct (main_outcome fl w)
    as [(e & ->)|[(e & _ & ->)|(e & c0 & cur & a & s & d & w1 & mid & b & H)]].
  - reflexivity.
  - reflexivity.
  - destruct H as (_ & _ & _ & _ & _ & Hb & ->).
    eexists _, b. split; [exact Hb|]. now destruct (writable w).
Qed.

(** X10: a run never hands an api key to the file that was not there:
    when the file is absent, does not decode or stores an empty key, then
    after the run the file is as it was, or holds the serialisation of a
    configuration with an empty key, or holds what a failed write of such
    a serialisation left. *)
Theorem api_key_never_introduced (fl : flag.t) (w : world) :
  (forall content c, conf w = Some content ->
     json_Decode_config content = Some c -> config.Apikey c = "") ->
  conf (final (main fl w)) = conf w \/
  exists c b, config.Apikey c = "" /\ json_MarshalIndent c = Some b /\
              (conf (final (main fl w)) = Some b \/
               conf (final (main fl w)) = WriteFile_leaves (conf w) b).
Proof.
  intros Hkey.
  destruct (main_outcome fl w)
    as [(e & ->)|[(e & _ & ->)|(e & c0 & cur & a & s & d & w1 & mid & b & H)]].
  - now left.
  - now left.
  - destruct H as (_ & _ & _ & Hc & Hd & Hb & ->).
    right. eexists _, b. split; [|split; [exact Hb|]].
    + unfold persisted. cbn [config.Apikey]. now rewrite (Hkey _ _ Hc Hd).
    + destruct (writable w); [now left|now right].
Qed.

(** X11: over a stored configuration whose key is not empty, a save that
    goes through writes the value as it is: the key of the current
    request replaces the key on file. *)
Theorem stored_key_is_replaced (c cur : config.t) (b : string) (w : world) :
  configFromFile w = Ok (Some cur) w ->
  config.Apikey cur <> "" ->
  writable w = true ->
  json_MarshalIndent c = Some b ->
  writeToFile c w = Ok tt (written b w).
Proof.
  intros Hread Hkey Hw Hb. rewrite writeToFile_eq.
  rewrite configFromFile_eq in Hread.
  destruct (conf w) as [content|]; [|discriminate].
  destruct (json_Decode_config content) as [cur'|]; [|discriminate].
  injection Hread as ->.
  assert (persisted cur c = c) as ->.
  { unfold persisted. apply String.eqb_neq in Hkey. rewrite Hkey. now destruct c. }
  now rewrite Hb, Hw.
Qed.

(** *** What goes out, what is printed, what is stored *)

Lemma requests_map_Stdout (l : list string) : requests (map Stdout l) = [].
Proof. induction l as [|x l IH]; simpl; [reflexivity | exact IH]. Qed.

Lemma stdout_map_Log (l : list string) : stdout (map Log l) = [].
Proof. induction l as [|x l IH]; simpl; [reflexivity | exact IH]. Qed.

(** Rewrites the requests and the output of a final world into those of
    the world the operation started in. *)
Ltac tally :=
  repeat first
    [ rewrite (proj1 (writeToFile_quiet _ _))
    | rewrite (proj2 (writeToFile_quiet _ _)) ];
  cbn [final trace extend];
  rewrite ?requests_app, ?stdout_app, ?requests_map_Stdout, ?stdout_map_Stdout;
  cbn [requests stdout];
  rewrite <- ?app_assoc, ?app_nil_r; cbn [app]; try reflexivity.

Lemma getStatus_requests (req : request.t) (migrationId : Z) (w : world) :
  requests (trace (final (getStatus req migrationId w)))
  = requests (trace w)
    ++ match url_Parse (status_url req migrationId) with
       | Some u => [status_request req u]
       | None => []
       end.
Proof.
  rewrite getStatus_eq.
  destruct (url_Parse _) as [u|]; [|tally]. cbv zeta.
  destruct (server w _) as [body|]; [|tally].
  destruct (json_Decode_status body) as [mstatus|]; tally.
Qed.

Lemma printAvailable_requests (req : request.t) (w : world) :
  requests (trace (final (printAvailable req w)))
  = requests (trace w)
    ++ match url_Parse (available_url req) with
       | Some u => [available_request req u]
       | None => []
       end.
Proof.
  rewrite printAvailable_eq, getAvailable_eq.
  destruct (url_Parse _) as [u|]; [|tally]. cbv zeta.
  destruct (server w _) as [body|]; [|tally].
  destruct (json_Decode_guids body) as [guids|]; [|tally].
  cbn [conf extend].
  destruct (conf w) as [content|]; [|tally].
  destruct (json_Decode_config content) as [cur|]; tally.
Qed.

Lemma importGuid_requests (req : request.t) (guid : string) (w : world) :
  requests (trace (final (importGuid req guid w)))
  = requests (trace w)
    ++ match url_Parse (available_url req) with
       | None => []
       | Some u0 =>
           available_request req u0
           :: match getAvailable req w with
              | Ok guids _ =>
                  match url_Parse (import_url req) with
                  | Some u => [import_request req u (titleToGuid guids guid)]
                  | None => []
                  end
              | _ => []
              end
       end.
Proof.
  rewrite importGuid_eq, getAvailable_eq.
  destruct (url_Parse (available_url req)) as [u0|]; [|tally]. cbv zeta.
  destruct (server w _) as [body0|]; [|tally].
  destruct (json_Decode_guids body0) as [guids|]; [|tally].
  destruct (url_Parse (import_url req)) as [u|]; [|tally].
  destruct (server _ _) as [body|]; [|tally].
  destruct (json_Decode_import body) as [nimport|]; tally.
Qed.

(** X12: the requests of each operation, whatever its outcome: a status
    query and a listing send exactly one GET, with an empty body and the
    bearer header, once their URL parses, and nothing otherwise; an
    import sends the GET of the list and, only when the list arrived and
    decoded, one POST with the resolved guid. *)
Theorem operations_requests (req : request.t) (w : world) :
  (forall migrationId,
     requests (trace (final (getStatus req migrationId w)))
     = requests (trace w)
       ++ match url_Parse (status_url req migrationId) with
          | Some u => [http.mk "GET" u "" ("Bearer " ++ request.Apikey req)]
          | None => []
          end) /\
  requests (trace (final (printAvailable req w)))
  = requests (trace w)
    ++ match url_Parse (available_url req) with
       | Some u => [http.mk "GET" u "" ("Bearer " ++ request.Apikey req)]
       | None => []
       end /\
  (forall guid,
     requests (trace (final (importGuid req guid w)))
     = requests (trace w)
       ++ match url_Parse (available_url req) with
          | None => []
          | Some u0 =>
              http.mk "GET" u0 "" ("Bearer " ++ request.Apikey req)
              :: match getAvailable req w with
                 | Ok guids _ =>
                     match url_Parse (import_url req) with
                     | Some u =>
                         [http.mk "POST" u ("guid=" ++ titleToGuid guids guid)
                                  ("Bearer " ++ request.Apikey req)]
                     | None => []
                     end
                 | _ => []
                 end
          end).
Proof.
  split; [intros; apply getStatus_requests|].
  split; [apply printAvailable_requests|intros; apply importGuid_requests].
Qed.

Lemma length_issue_lines (l : list migrationIssue.t) :
  length (concat (map issue_lines l)) = 5 * length l.
Proof. induction l as [|x l IH]; simpl; [reflexivity | rewrite IH; lia]. Qed.

(** X14: the rendering of a status never fails and only prints: for id 0
    the not-found message alone, even when the answer carries a state or
    issues; otherwise four lines for the migration, then five lines per
    issue in the order received, however many issues the answer's count
    field announces. *)
Theorem printMigrationStatus_renders (mstatus : migrationStatus.t) (w : world) :
  exists lines,
    printMigrationStatus mstatus w = Ok tt (extend (map Stdout lines) w) /\
    (migrationStatus.Id mstatus = 0%Z -> lines = [not_found_message]) /\
    (migrationStatus.Id mstatus <> 0%Z ->
       lines = status_lines mstatus /\
       length lines = 4 + 5 * length (migrationStatus.MigrationIssues mstatus)).
Proof.
  eexists. split; [apply printMigrationStatus_eq|].
  destruct (Z.eqb_spec (migrationStatus.Id mstatus) 0) as [E|N].
  - split; [reflexivity|congruence].
  - split; [congruence|]. intros _. split; [reflexivity|].
    unfold status_lines. rewrite List.length_app, length_issue_lines. reflexivity.
Qed.

(** X15: over a stored configuration that can be written, a status query
    whose answer decodes persists the migration id that was asked for,
    not the id of the answer: a query for an unknown migration replaces
    the stored id by the unknown one. *)
Theorem status_persists_queried_id (req : request.t) (migrationId : Z)
    (w : world) (u body b : string) (mstatus : migrationStatus.t)
    (cur : config.t) :
  url_Parse (status_url req migrationId) = Some u ->
  server w (status_request req u) = Some body ->
  json_Decode_status body = Some mstatus ->
  configFromFile w = Ok (Some cur) w ->
  json_MarshalIndent
    (config.mk (if (config.Apikey cur =? "")%string then ""
                else request.Apikey req)
               migrationId (request.Domain req)) = Some b ->
  writable w = true ->
  exists w', getStatus req migrationId w = Ok tt w' /\ conf w' = Some b.
Proof.
  intros Hu Hs Hd Hread Hm Hw.
  destruct (getStatus_persists req migrationId w u body b mstatus cur
              Hu Hs Hd Hread Hm Hw) as (w' & H & _ & Hc).
  now exists w'.
Qed.

(** X16: over a stored configuration that can be written, an import whose
    answer decodes persists the migration id of the answer, whatever
    migration id was stored or given by [-status]. *)
Theorem import_persists_returned_id (req : request.t) (guid : string)
    (w w1 : world) (guids : list importableGuid.t) (u body b : string)
    (nimport : newImport.t) (cur : config.t) :
  getAvailable req w = Ok guids w1 ->
  url_Parse (import_url req) = Some u ->
  server w (import_request req u (titleToGuid guids guid)) = Some body ->
  json_Decode_import body = Some nimport ->
  configFromFile w = Ok (Some cur) w ->
  json_MarshalIndent
    (config.mk (if (config.Apikey cur =? "")%string then ""
                else request.Apikey req)
               (newImport.MigrationId nimport) (request.Domain req)) = Some b ->
  writable w = true ->
  exists w', importGuid req guid w = Ok tt w' /\ conf w' = Some b.
Proof.
  intros Hget Hu Hs Hd Hread Hm Hw.
  destruct (importGuid_persists req guid w w1 guids u body b nimport cur
              Hget Hu Hs Hd Hread Hm Hw) as (w' & H & _ & Hc).
  now exists w'.
Qed.

(** X17: a supplied value that is no title of the entries before some
    point stays as it is over those entries, and the first entry after
    them that carries it as a title gives its guid, whatever follows:
    among entries with the same title the first received wins. *)
Theorem titleToGuid_first_match (pre : list importableGuid.t) (guid : string) :
  (forall e, In e pre -> importableGuid.Title e <> guid) ->
  titleToGuid pre guid = guid /\
  forall e post, importableGuid.Title e = guid ->
    titleToGuid (pre ++ e :: post) guid = importableGuid.Guid e.
Proof.
  induction pre as [|x pre IH]; intros H.
  - split; [reflexivity|]. intros e post E. simpl.
    apply String.eqb_eq in E. now rewrite E.
  - assert (importableGuid.Title x <> guid) as N by (apply H; now left).
    apply String.eqb_neq in N. simpl. rewrite N.
    apply IH. intros e He. apply H. now right.
Qed.

(** X18: what a successful save leaves is what the next run starts from:
    the file holds the text that was written, and when that text decodes
    to the value that was serialised, a following run with no [-apikey],
    [-status] and [-domain] merges to the persisted key, migration id and
    domain. *)
Theorem save_then_merge (c cur : config.t) (b : string) (w : world) :
  configFromFile w = Ok (Some cur) w ->
  writable w = true ->
  json_MarshalIndent (persisted cur c) = Some b ->
  json_Decode_config b = Some (persisted cur c) ->
  exists w1,
    writeToFile c w = Ok tt w1 /\
    conf w1 = Some b /\
    forall av g, exists w2,
      mergeConfig (flag.mk "" "" 0 av g) w1
      = Ok (if (config.Apikey cur =? "")%string then "" else config.Apikey c,
            config.MigrationId c, config.Domain c) w2.
Proof.
  intros Hread Hw Hb Hdec. exists (written b w). split; [|split].
  - rewrite writeToFile_eq. rewrite configFromFile_eq in Hread.
    destruct (conf w) as [content|]; [|discriminate].
    destruct (json_Decode_config content) as [cur'|]; [|discriminate].
    injection Hread as ->. now rewrite Hb, Hw.
  - reflexivity.
  - intros av g. eexists.
    rewrite (mergeConfig_stored _ (written b w) (persisted cur c)).
    + reflexivity.
    + rewrite configFromFile_eq. cbn [conf written]. now rewrite Hdec.
Qed.

(** X19: once the list is fetched and decoded, the listing is on standard
    output whatever the save does afterwards, a panic on a missing file
    included. *)
Theorem listing_printed_before_save (req : request.t) (w w1 : world)
    (guids : list importableGuid.t) :
  getAvailable req w = Ok guids w1 ->
  stdout (trace (final (printAvailable req w)))
  = stdout (trace w) ++ available_header :: map guid_line guids.
Proof.
  intros Hget. rewrite printAvailable_eq, Hget.
  apply getAvailable_Ok in Hget as (u & _ & ->). cbv zeta. cbn [conf extend].
  destruct (conf w) as [content|]; [|tally].
  destruct (json_Decode_config content) as [cur|]; tally.
Qed.

(** X13: what a whole run sends: at most two requests, none unless the
    merged api key and domain are both non-empty, each with the bearer
    header of the merged key; a GET has an empty body, and a POST goes out
    only for an import ([-available] not given, [-guid] non-empty) with a
    body [guid=...]. *)
Theorem main_requests (fl : flag.t) (w w1 : world) (a d : string) (s : Z) :
  mergeConfig fl w = Ok (a, s, d) w1 ->
  exists new,
    requests (trace (final (main fl w))) = requests (trace w) ++ new /\
    length new <= 2 /\
    (new <> [] -> a <> "" /\ d <> "") /\
    forall h, In h new ->
      http.Authorization h = ("Bearer " ++ a)%string /\
      ((http.Method h = "GET" /\ http.Body h = "") \/
       (http.Method h = "POST" /\ flag.available fl = false /\
        flag.guid fl <> "" /\ exists g, http.Body h = ("guid=" ++ g)%string)).
Proof.
  intros Hm. destruct (mergeConfig_frame _ _ _ _ Hm) as (logs & ->).
  destruct (extend_logs_quiet logs w) as (_ & Hr & _).
  rewrite (main_eq _ _ _ _ Hm), dispatch_eq.
  assert (forall evs, requests evs = [] ->
            exists new,
              requests (trace (final (@Fatal unit
                          (extend evs (extend (map Log logs) w)))))
              = requests (trace w) ++ new /\
              length new <= 2 /\
              (new <> [] -> a <> "" /\ d <> "") /\
              forall h, In h new ->
                http.Authorization h = ("Bearer " ++ a)%string /\
                ((http.Method h = "GET" /\ http.Body h = "") \/
                 (http.Method h = "POST" /\ flag.available fl = false /\
                  flag.guid fl <> "" /\
                  exists g, http.Body h = ("guid=" ++ g)%string))) as Hstop.
  { intros evs He. exists []. split.
    - cbn [final]. change (trace (extend evs ?x)) with (trace x ++ evs).
      now rewrite requests_app, Hr, He.
    - split; [simpl; lia|]. split; [congruence|intros h []]. }
  destruct (String.eqb_spec a "") as [Ea|Na]; [now apply Hstop|].
  destruct (String.eqb_spec d "") as [Ed|Nd]; [now apply Hstop|].
  destruct (flag.available fl) eqn:Hav.
  { rewrite printAvailable_requests, Hr.
    destruct (url_Parse _) as [u|]; eexists; (split; [reflexivity|]);
      (split; [simpl; lia|]); (split; [now split|]).
    - intros h [<-|[]]. split; [reflexivity|]. left. now split.
    - intros h []. }
  destruct (String.eqb_spec (flag.guid fl) "") as [Eg|Ng]; cbn [negb].
  - destruct (Z.eqb_spec s 0) as [Es|Ns]; cbn [negb]; [now apply Hstop|].
    rewrite getStatus_requests, Hr.
    destruct (url_Parse _) as [u|]; eexists; (split; [reflexivity|]);
      (split; [simpl; lia|]); (split; [now split|]).
    + intros h [<-|[]]. split; [reflexivity|]. left. now split.
    + intros h [].
  - rewrite importGuid_requests, Hr.
    destruct (url_Parse (available_url _)) as [u0|];
      [destruct (getAvailable _ _) as [guids w2|w2|w2];
       [destruct (url_Parse (import_url _)) as [u|]| |]|];
      eexists; (split; [reflexivity|]);
      (split; [simpl; lia|]); (split; [now split|]);
      intros h Hin; simpl in Hin;
      repeat match goal with
             | H : _ \/ _ |- _ => destruct H as [<-|H]
             | H : False |- _ => destruct H
             end;
      (split; [reflexivity|]);
      first [ left; now split
            | right; split; [reflexivity|]; split; [reflexivity|];
              split; [assumption|]; eexists; reflexivity ].
Qed.

(** X20: a run with no flags at all over a stored configuration polls
    the stored migration with the stored key and domain, after the three
    log lines of the merge; when the stored key is empty it ends in the
    usage error about the key instead. *)
Theorem bare_run_polls_stored_migration (w : world) (c : config.t) :
  configFromFile w = Ok (Some c) w ->
  let fl := flag.mk "" "" 0 false "" in
  let w1 := extend [Log "Using API key from config file";
                    Log "Using migration ID from config file";
                    Log "Using domain from config file"] w in
  (config.Apikey c = "" ->
     main fl w = Fatal (extend [Usage; Log "You need a valid canvas API key"] w1)) /\
  (config.Apikey c <> "" -> config.Domain c <> "" -> config.MigrationId c <> 0%Z ->
     main fl w = getStatus (request_of (config.Apikey c) (config.Domain c))
                           (config.MigrationId c) w1).
Proof.
  intros Hread fl w1.
  pose proof (mergeConfig_stored fl w c Hread) as Hm.
  rewrite (main_eq _ _ _ _ Hm), dispatch_eq.
  cbn [flag.apikey flag.status flag.domain flag.available flag.guid fl
       String.eqb Z.eqb negb].
  split.
  - intros ->. reflexivity.
  - intros Ha Hd Hs.
    apply String.eqb_neq in Ha, Hd. apply Z.eqb_neq in Hs.
    now rewrite Ha, Hd, Hs.
Qed.

End Facts.

(** ** The scenarios, run on the concrete library *)

Lemma normalizeDomain_spec_witness :
  (exists r, qualified "utah" r /\ strip_slash r (normalizeDomain "utah")) /\
  (forall r out, qualified "utah" r -> strip_slash r out ->
                 out = normalizeDomain "utah").
Proof.
  apply (proj2 (proj2 (proj2 (proj2 normalizeDomain_spec)))). discriminate.
Defined.

Lemma mergeConfig_precedence_witness :
  exists merged w',
    mergeConfig flags_status_7 no_key_stored = Ok merged w' /\
    conf w' = conf no_key_stored /\
    precedence flags_status_7 (Some stored_no_key) merged /\
    main flags_status_7 no_key_stored = dispatch flags_status_7 merged w'.
Proof.
  apply (mergeConfig_precedence flags_status_7 no_key_stored (Some stored_no_key)).
  vm_compute. reflexivity.
Defined.

(** The merged values of that run: the key and the id of the flags, the
    domain of the file. *)
Example merge_status_7 :
  exists w', mergeConfig flags_status_7 no_key_stored = Ok ("secret", 7%Z, utah) w'.
Proof. eexists. vm_compute. reflexivity. Qed.

Lemma dispatch_priority_witness :
  (flag.available flags_all = true ->
     main flags_all no_key_stored
     = printAvailable (request_of "secret" "utah") no_key_stored) /\
  (flag.available flags_all = false -> flag.guid flags_all <> "" ->
     main flags_all no_key_stored
     = importGuid (request_of "secret" "utah") (flag.guid flags_all) no_key_stored) /\
  (flag.available flags_all = false -> flag.guid flags_all = "" -> 7%Z <> 0%Z ->
     main flags_all no_key_stored
     = getStatus (request_of "secret" "utah") 7 no_key_stored).
Proof.
  apply (dispatch_priority flags_all no_key_stored no_key_stored "secret" "utah" 7).
  - vm_compute. reflexivity.
  - discriminate.
  - discriminate.
Defined.

(** With all three actions requested only the listing runs: one GET, the
    listing printed, no POST and no status query. *)
Example all_flags_run_the_listing :
  requests (trace (final (main flags_all no_key_stored)))
  = [available_request (request_of "secret" "utah")
       (utah ++ "/api/v1/global/outcomes_import/available")] /\
  stdout (trace (final (main flags_all no_key_stored)))
  = available_header :: map guid_line available_guids.
Proof. split; vm_compute; reflexivity. Qed.

(** [-guid Math] is resolved to [g1] by the list fetched first; a value
    that is no title, here the raw guid [g2], is posted as it is after the
    same fetch. *)
Example guid_Math_resolves_to_g1 :
  map http.Body (requests (trace (final (main flags_guid_Math no_key_stored))))
  = [""; "guid=g1"] /\
  map http.Method (requests (trace (final (main flags_guid_Math no_key_stored))))
  = ["GET"; "POST"] /\
  map http.Body
      (requests (trace (final (main (flag.mk "secret" "utah" 0 false "g2")
                                    no_key_stored))))
  = [""; "guid=g2"].
Proof. repeat split; vm_compute; reflexivity. Qed.

(** C9 (counterexample): with key and domain given, no [-available], no
    [-guid], no file and so a merged migration id of zero, the run logs
    the fatal message and no usage text is printed. *)
Lemma no_action_prints_no_usage :
  flag.available flags_no_action = false /\
  flag.guid flags_no_action = "" /\
  mergeConfig flags_no_action first_run = Ok ("secret", 0%Z, "utah") first_run /\
  trace (final (main flags_no_action first_run))
  = [Log "No recent migration ID, and none specified to query status on"] /\
  ~ In Usage (trace (final (main flags_no_action first_run))).
Proof.
  repeat split; try (vm_compute; reflexivity).
  vm_compute. intros [H|[]]. discriminate.
Qed.

Lemma no_action_is_fatal_witness :
  exists w',
    main flags_no_action first_run = Fatal w' /\
    exit_status (main flags_no_action first_run) = 1%Z /\
    conf w' = conf first_run /\
    requests (trace w') = requests (trace first_run) /\
    stdout (trace w') = stdout (trace first_run) /\
    ("secret" = "" \/ "utah" = "" ->
       exists msg, trace w' = trace first_run ++ [Usage; Log msg]) /\
    ("secret" <> "" -> "utah" <> "" ->
       trace w' = trace first_run ++
         [Log "No recent migration ID, and none specified to query status on"]).
Proof.
  apply (proj2 no_action_is_fatal flags_no_action first_run "secret" "utah" first_run).
  - reflexivity.
  - reflexivity.
  - vm_compute. reflexivity.
Defined.

(** C7 (counterexample): a listing run with the key [secret] over a
    stored configuration with an empty key ends normally and persists an
    empty key, not the key of the request. *)
Lemma printAvailable_drops_api_key :
  exists w',
    printAvailable (request_of "secret" "utah") no_key_stored = Ok tt w' /\
    conf w' = Some (demo_marshal (config.mk "" 5 utah)) /\
    json_Decode_config (demo_marshal (config.mk "" 5 utah))
    = Some (config.mk "" 5 utah) /\
    request.Apikey (request_of "secret" "utah") = "secret" /\
    conf w' <> Some (demo_marshal (config.mk "secret" 5 utah)).
Proof.
  eexists. split; [vm_compute; reflexivity|].
  repeat split; try (vm_compute; reflexivity).
  vm_compute. discriminate.
Qed.

Lemma printAvailable_persists_witness :
  stdout (trace (final (printAvailable (request_of "secret" "utah") no_key_stored)))
  = stdout (trace no_key_stored) ++ available_header :: map guid_line available_guids /\
  exists w',
    printAvailable (request_of "secret" "utah") no_key_stored = Ok tt w' /\
    conf w' = Some (demo_marshal (config.mk "" 5 utah)).
Proof.
  destruct (proj1 printAvailable_persists (request_of "secret" "utah")
              no_key_stored (available_url (request_of "secret" "utah"))
              available_json available_guids) as [Hout Hsave].
  - reflexivity.
  - vm_compute. reflexivity.
  - vm_compute. reflexivity.
  - split; [exact Hout|].
    apply (Hsave stored_no_key).
    + vm_compute. reflexivity.
    + vm_compute. reflexivity.
    + reflexivity.
Defined.

(** C2 (the code at the failing input): the configuration file can be
    read and cannot be written; a status query for migration 7 over the
    stored migration 5 ends normally with exit status 0, the file still
    holds migration 5, and the trace of the run holds no report of the
    failed write. *)
Theorem write_failure_is_ignored :
  writable read_only = false /\
  writeToFile (config.mk "secret" 7 utah) read_only = Ok tt read_only /\
  exit_status (main flags_status_7 read_only) = 0%Z /\
  conf (final (main flags_status_7 read_only)) = Some (demo_marshal stored_no_key) /\
  trace (final (main flags_status_7 read_only))
  = [Log "Using domain from config file";
     Log "Retrieving status for migration 7";
     Do (status_request (request_of "secret" utah)
           (utah ++ "/api/v1/global/outcomes_import/migration_status/7"))]
    ++ map Stdout (status_lines (migrationStatus.mk 7 "completed" 0 [])).
Proof. repeat split; vm_compute; reflexivity. Qed.

(** C5 (the code at the failing input): a first run with [-status 42]
    against a server that answers [{"id":0}] prints the not-found message
    and then panics in the save: exit status 2, nothing persisted. *)
Theorem first_status_query_panics :
  stdout (trace (final (main flags_status_42 first_run))) = [not_found_message] /\
  (exists w', main flags_status_42 first_run = Panic w') /\
  exit_status (main flags_status_42 first_run) = 2%Z /\
  conf (final (main flags_status_42 first_run)) = None.
Proof.
  repeat split; try (vm_compute; reflexivity).
  eexists. vm_compute. reflexivity.
Qed.

(** C8 (the code at the failing input): a first run with [-guid Math]
    resolves the title to [g1], posts it, prints [Migration ID is 99] and
    then panics in the save: exit status 2, migration 99 is not
    persisted. *)
Theorem first_import_panics :
  requests (trace (final (main flags_guid_Math first_run)))
  = [available_request (request_of "secret" "utah")
       (utah ++ "/api/v1/global/outcomes_import/available");
     import_request (request_of "secret" "utah")
       (utah ++ "/api/v1/global/outcomes_import/") "g1"] /\
  stdout (trace (final (main flags_guid_Math first_run)))
  = [import_line (newImport.mk 99 "g1")] /\
  (exists w', main flags_guid_Math first_run = Panic w') /\
  exit_status (main flags_guid_Math first_run) = 2%Z /\
  conf (final (main flags_guid_Math first_run)) = None.
Proof.
  repeat split; try (vm_compute; reflexivity).
  eexists. vm_compute. reflexivity.
Qed.

(** ** Instances of the further properties *)

Lemma normalizeDomain_stable_witness :
  ~ ends_in (normalizeDomain "https://foo.com/") "/" /\
  normalizeDomain (normalizeDomain "https://foo.com/")
  = normalizeDomain "https://foo.com/".
Proof.
  apply (normalizeDomain_stable "https://foo.com/").
  - discriminate.
  - discriminate.
  - apply HasSuffix_false. reflexivity.
Defined.

Lemma normalizeDomain_strips_one_slash_witness :
  normalizeDomain ("https://foo.com" ++ "/") = "https://foo.com" /\
  normalizeDomain ("https://foo.com" ++ "//") = ("https://foo.com" ++ "/")%string.
Proof.
  apply (normalizeDomain_strips_one_slash "https://foo.com").
  apply HasPrefix_iff. reflexivity.
Defined.

Lemma normalizeDomain_names_witness :
  (ends_in "utah" "com" -> normalizeDomain "utah" = ("https://" ++ "utah")%string) /\
  ("utah" <> "" -> ~ ends_in "utah" "com" -> ~ ends_in "utah" "/" ->
     normalizeDomain "utah" = ("https://" ++ "utah" ++ ".instructure.com")%string).
Proof.
  apply (normalizeDomain_names "utah").
  - apply HasPrefix_false. reflexivity.
  - discriminate.
Defined.

Lemma missing_credentials_are_fatal_witness :
  ("" = "" ->
     main (flag.mk "" "" 7 true "Math") first_run
     = Fatal (extend [Usage; Log "You need a valid canvas API key"] first_run)) /\
  ("" <> "" -> "" = "" ->
     main (flag.mk "" "" 7 true "Math") first_run
     = Fatal (extend [Usage; Log "You must supply a canvas domain"] first_run)).
Proof.
  apply (missing_credentials_are_fatal (flag.mk "" "" 7 true "Math")
           first_run first_run "" "" 7).
  reflexivity.
Defined.

Lemma malformed_config_is_fatal_witness :
  main flags_all malformed = Fatal (extend [Log ("Config file json error: " ++ err)] malformed).
Proof.
  apply (malformed_config_is_fatal flags_all malformed "not json").
  - reflexivity.
  - vm_compute. reflexivity.
Defined.

Lemma no_panic_with_file_witness :
  conf no_key_stored = Some (demo_marshal stored_no_key) /\
  forall w', main flags_status_42 no_key_stored <> Panic w'.
Proof.
  split; [reflexivity|].
  apply (no_panic_with_file flags_status_42 no_key_stored
           (demo_marshal stored_no_key)).
  reflexivity.
Defined.

Lemma first_run_never_succeeds_witness :
  (forall w', main flags_available first_run <> Ok tt w') /\
  conf (final (main flags_available first_run)) = None.
Proof.
  apply (first_run_never_succeeds flags_available first_run). reflexivity.
Defined.

Lemma api_key_never_introduced_witness :
  conf (final (main flags_status_7 no_key_stored)) = conf no_key_stored \/
  exists c b, config.Apikey c = "" /\ json_MarshalIndent c = Some b /\
              (conf (final (main flags_status_7 no_key_stored)) = Some b \/
               conf (final (main flags_status_7 no_key_stored))
               = WriteFile_leaves (conf no_key_stored) b).
Proof.
  apply (api_key_never_introduced flags_status_7 no_key_stored).
  intros content c H1 H2. injection H1 as <-.
  vm_compute in H2. injection H2 as <-. reflexivity.
Defined.

Lemma stored_key_is_replaced_witness :
  writeToFile (config.mk "secret" 7 utah) key_stored
  = Ok tt (written (demo_marshal (config.mk "secret" 7 utah)) key_stored).
Proof.
  apply (stored_key_is_replaced (config.mk "secret" 7 utah) stored_with_key).
  - vm_compute. reflexivity.
  - discriminate.
  - reflexivity.
  - reflexivity.
Defined.

Lemma main_requests_witness :
  exists new,
    requests (trace (final (main flags_guid_Math no_key_stored)))
    = requests (trace no_key_stored) ++ new /\
    length new <= 2 /\
    (new <> [] -> "secret" <> "" /\ "utah" <> "") /\
    forall h, In h new ->
      http.Authorization h = ("Bearer " ++ "secret")%string /\
      ((http.Method h = "GET" /\ http.Body h = "") \/
       (http.Method h = "POST" /\ flag.available flags_guid_Math = false /\
        flag.guid flags_guid_Math <> "" /\
        exists g, http.Body h = ("guid=" ++ g)%string)).
Proof.
  apply (main_requests flags_guid_Math no_key_stored
           (extend (map Log (merge_logs flags_guid_Math)) no_key_stored)
           "secret" "utah" 5).
  vm_compute. reflexivity.
Defined.

Lemma status_persists_queried_id_witness :
  exists w',
    getStatus (request_of "secret" "utah") 42 no_key_stored = Ok tt w' /\
    conf w' = Some (demo_marshal (config.mk "" 42 utah)).
Proof.
  apply (status_persists_queried_id (request_of "secret" "utah") 42 no_key_stored
           (status_url (request_of "secret" "utah") 42) status_0_json
           (demo_marshal (config.mk "" 42 utah))
           (migrationStatus.mk 0 "" 0 []) stored_no_key).
  - reflexivity.
  - vm_compute. reflexivity.
  - vm_compute. reflexivity.
  - vm_compute. reflexivity.
  - vm_compute. reflexivity.
  - reflexivity.
Defined.

Lemma import_persists_returned_id_witness :
  exists w',
    importGuid (request_of "secret" "utah") "Math" no_key_stored = Ok tt w' /\
    conf w' = Some (demo_marshal (config.mk "" 99 utah)).
Proof.
  apply (import_persists_returned_id (request_of "secret" "utah") "Math"
           no_key_stored
           (extend [Log ("Requesting available guids from "
                         ++ available_url (request_of "secret" "utah"));
                    Do (available_request (request_of "secret" "utah")
                          (available_url (request_of "secret" "utah")))]
                   no_key_stored)
           available_guids
           (import_url (request_of "secret" "utah")) import_json
           (demo_marshal (config.mk "" 99 utah))
           (newImport.mk 99 "g1") stored_no_key).
  - vm_compute. reflexivity.
  - reflexivity.
  - vm_compute. reflexivity.
  - vm_compute. reflexivity.
  - vm_compute. reflexivity.
  - vm_compute. reflexivity.
  - reflexivity.
Defined.

Lemma titleToGuid_first_match_witness :
  titleToGuid [importableGuid.mk "Science" "g2"] "Math" = "Math" /\
  forall e post, importableGuid.Title e = "Math" ->
    titleToGuid ([importableGuid.mk "Science" "g2"] ++ e :: post) "Math"
    = importableGuid.Guid e.
Proof.
  apply (titleToGuid_first_match [importableGuid.mk "Science" "g2"] "Math").
  intros e [<-|[]]. discriminate.
Defined.

(** Two entries titled [Math]: the first one gives the guid. *)
Example duplicate_titles :
  titleToGuid [importableGuid.mk "Science" "g2"; importableGuid.mk "Math" "g1";
               importableGuid.mk "Math" "g9"] "Math" = "g1".
Proof. reflexivity. Qed.

(** The file holds the key [old-key] and migration 5; the save of
    [secret] and migration 7 replaces both, and the next run reads them. *)
Lemma save_then_merge_witness :
  conf key_stored <> Some (demo_marshal saved_7) /\
  exists w1,
    @writeToFile reading_lib saved_7 key_stored = Ok tt w1 /\
    conf w1 = Some (demo_marshal saved_7) /\
    forall av g, exists w2,
      @mergeConfig reading_lib (flag.mk "" "" 0 av g) w1
      = Ok (if (config.Apikey stored_with_key =? "")%string then ""
            else config.Apikey saved_7,
            config.MigrationId saved_7, config.Domain saved_7) w2.
Proof.
  split; [vm_compute; discriminate|].
  apply (@save_then_merge reading_lib saved_7 stored_with_key
           (demo_marshal saved_7) key_stored).
  - vm_compute. reflexivity.
  - reflexivity.
  - reflexivity.
  - vm_compute. reflexivity.
Defined.

Lemma listing_printed_before_save_witness :
  stdout (trace (final (printAvailable (request_of "secret" "utah") first_run)))
  = stdout (trace first_run) ++ available_header :: map guid_line available_guids.
Proof.
  apply (listing_printed_before_save (request_of "secret" "utah") first_run
           (extend [Log ("Requesting available guids from "
                         ++ available_url (request_of "secret" "utah"));
                    Do (available_request (request_of "secret" "utah")
                          (available_url (request_of "secret" "utah")))]
                   first_run)
           available_guids).
  vm_compute. reflexivity.
Defined.

Lemma bare_run_polls_stored_migration_witness :
  (config.Apikey stored_with_key = "" ->
     main (flag.mk "" "" 0 false "") key_stored
     = Fatal (extend [Usage; Log "You need a valid canvas API key"]
                (extend [Log "Using API key from config file";
                         Log "Using migration ID from config file";
                         Log "Using domain from config file"] key_stored))) /\
  (config.Apikey stored_with_key <> "" -> config.Domain stored_with_key <> "" ->
   config.MigrationId stored_with_key <> 0%Z ->
     main (flag.mk "" "" 0 false "") key_stored
     = getStatus (request_of (config.Apikey stored_with_key)
                             (config.Domain stored_with_key))
                 (config.MigrationId stored_with_key)
                 (extend [Log "Using API key from config file";
                          Log "Using migration ID from config file";
                          Log "Using domain from config file"] key_stored)).
Proof.
  apply (bare_run_polls_stored_migration key_stored stored_with_key).
  vm_compute. reflexivity.
Defined.
